(** * The Autotune module of the flight firmware (flight/modules/Autotune/autotune.c)

    A shallow embedding of [AutotuneTask] and [update_stabilization_settings]
    together with the properties of the relay-tuning state machine and of the
    gain computation.

    - C [float] is IEEE-754 binary32 and C [double] is binary64; both are
      modelled bit-exactly with the [spec_float] operations (round to nearest,
      ties to even).
    - The UAVObjects the module reads and writes are fields of a [World]
      record; the calls of the module (Get, Set, UAVObjSave, vTaskDelay,
      xTaskGetTickCount, the watchdog flag) are operations of a small
      state-and-output monad that also logs every call as an [Event].
    - One iteration of the [while (1)] loop is [AutotuneTask_iteration]; the
      other tasks of the firmware act on the objects between two iterations. *)

From Stdlib Require Import ZArith List Bool Lia QArith.
From Stdlib Require Import Floats.SpecFloat.
Import ListNotations.

Local Open Scope Z_scope.

(* ===================================================================== *)
(** ** Floating point *)
(* ===================================================================== *)

(** Conversion between two binary formats (C's implicit float/double
    conversions): exact when widening, rounding to nearest even when
    narrowing. *)
Definition SFconv (prec emax : Z) (x : spec_float) : spec_float :=
  match x with
  | S754_finite s m e => binary_normalize prec emax (cond_Zopp s (Zpos m)) e s
  | _ => x
  end.

(** A float is finite when it is a zero or a (sub)normal number. *)
Definition SFis_finite (x : spec_float) : bool :=
  match x with
  | S754_zero _ | S754_finite _ _ _ => true
  | S754_infinity _ | S754_nan => false
  end.

(** [x == 0.0] in C: true for both signed zeros. *)
Definition SFis_zero (x : spec_float) : bool :=
  match x with
  | S754_zero _ => true
  | _ => false
  end.

(** The rational value of a finite float (0 for the others). *)
Definition SF2Q (x : spec_float) : Q :=
  match x with
  | S754_finite s m e => inject_Z (cond_Zopp s (Zpos m)) * Qpower 2 e
  | _ => 0
  end%Q.

(** [x] is a finite number which lies in the closed interval [lo, hi]. *)
Definition SFbetween (lo hi : Q) (x : spec_float) : bool :=
  SFis_finite x && Qle_bool lo (SF2Q x) && Qle_bool (SF2Q x) hi.

(** [x] written with three decimals is [n / 1000]: |x - n/1000| <= 0.0005. *)
Definition SFapprox3 (x : spec_float) (n : Z) : bool :=
  SFbetween ((2 * n - 1) # 2000) ((2 * n + 1) # 2000) x.

(** C [float]. *)
Module F32.
Definition prec : Z := 24.
Definition emax : Z := 128.
Definition t := spec_float.
Definition mul : t -> t -> t := SFmul prec emax.
Definition div : t -> t -> t := SFdiv prec emax.
Definition ltb : t -> t -> bool := SFltb.
Definition leb : t -> t -> bool := SFleb.
Definition of_Z (z : Z) : t := binary_normalize prec emax z 0 false.
(** a decimal literal [n / d] followed by f, correctly rounded *)
Definition of_ratio (n d : Z) : t := div (of_Z n) (of_Z d).
End F32.

(** C [double]. *)
Module F64.
Definition prec : Z := 53.
Definition emax : Z := 1024.
Definition t := spec_float.
Definition mul : t -> t -> t := SFmul prec emax.
Definition div : t -> t -> t := SFdiv prec emax.
Definition of_float (x : F32.t) : t := SFconv prec emax x.
Definition to_float (x : t) : F32.t := SFconv F32.prec F32.emax x.
(** [M_PI] of math.h, 3.14159265358979323846: the double 0x400921FB54442D18. *)
Definition M_PI : t := S754_finite false 7074237752028440 (-51).
End F64.

Definition float : Type := F32.t.

(* ===================================================================== *)
(** ** UAVObjects *)
(* ===================================================================== *)

(** The headers of the UAVObjects are generated files which are not among
    the sources; each record below carries the fields autotune.c names, with
    the options autotune.c and the specification name.  An array field whose
    elements the code addresses by a named index constant is a record with
    one field per element. *)

(** Modelled from the spec: flightstatus.h, the declaration of
    [FlightStatusData].  The specification has [armed] as a boolean and
    [flightMode] as an enumeration with AUTOTUNE among its values.  The code
    compares [Armed] with FLIGHTSTATUS_ARMED_ARMED in one place and with
    FLIGHTSTATUS_ARMED_DISARMED in another, so an option that is neither is
    kept; every statement below covers it. *)
Module FlightStatus.
Inductive ArmedOptions := ARMED_DISARMED | ARMED_ARMING | ARMED_ARMED.
Inductive FlightModeOptions :=
| FLIGHTMODE_MANUAL
| FLIGHTMODE_STABILIZED1
| FLIGHTMODE_AUTOTUNE.
Record Data := mk { Armed : ArmedOptions; FlightMode : FlightModeOptions }.

Definition Armed_eqb (a b : ArmedOptions) : bool :=
  match a, b with
  | ARMED_DISARMED, ARMED_DISARMED
  | ARMED_ARMING, ARMED_ARMING
  | ARMED_ARMED, ARMED_ARMED => true
  | _, _ => false
  end.

Definition is_AUTOTUNE (m : FlightModeOptions) : bool :=
  match m with
  | FLIGHTMODE_AUTOTUNE => true
  | _ => false
  end.
End FlightStatus.

(** Modelled from the spec: manualcontrolcommand.h, the declaration of
    [ManualControlCommandData] (the normalized stick axes). *)
Module ManualControlCommand.
Record Data := mk { Roll : float; Pitch : float; Yaw : float; Throttle : float }.
End ManualControlCommand.

(** Modelled from the spec: manualcontrolsettings.h, the declaration of
    [ManualControlSettingsData].  The object is read every iteration and no
    field of it is used, so the record has none. *)
Module ManualControlSettings.
Inductive Data := mk.
End ManualControlSettings.

(** Modelled from the spec: relaytuningsettings.h, the declaration of
    [RelayTuningSettingsData]: [mode] is RATE or ATTITUDE, [behavior] is
    MEASURE, COMPUTE or SAVE. *)
Module RelayTuningSettings.
Inductive ModeOptions := MODE_RATE | MODE_ATTITUDE.
Inductive BehaviorOptions := BEHAVIOR_MEASURE | BEHAVIOR_COMPUTE | BEHAVIOR_SAVE.
Record Data := mk { Mode : ModeOptions; Behavior : BehaviorOptions }.
End RelayTuningSettings.

(** Modelled from the spec: relaytuning.h, the declaration of
    [RelayTuningData]: a period (ms) and a gain per axis.  The code indexes
    [Period] and [Gain] by the loop counter, 0 for roll and 1 for pitch. *)
Module RelayTuning.
Record PerAxis := mkPerAxis { Roll : float; Pitch : float }.
(** [a[i]] for the two indices the loop visits *)
Definition at_index (a : PerAxis) (i : nat) : float :=
  match i with
  | O => Roll a
  | _ => Pitch a
  end.
Record Data := mk { Period : PerAxis; Gain : PerAxis }.
End RelayTuning.

(** Modelled from the spec: stabilizationdesired.h, the declaration of
    [StabilizationDesiredData]: a mode per axis, one of RATE, ATTITUDE,
    RELAY_RATE and RELAY_ATTITUDE, a command value per axis and the
    throttle. *)
Module StabilizationDesired.
Inductive StabilizationModeOptions :=
| STABILIZATIONMODE_RATE
| STABILIZATIONMODE_ATTITUDE
| STABILIZATIONMODE_RELAYRATE
| STABILIZATIONMODE_RELAYATTITUDE.

(** [StabilizationMode[3]], indexed by ..._STABILIZATIONMODE_ROLL, _PITCH, _YAW *)
Record Modes := mkModes {
  STABILIZATIONMODE_ROLL : StabilizationModeOptions;
  STABILIZATIONMODE_PITCH : StabilizationModeOptions;
  STABILIZATIONMODE_YAW : StabilizationModeOptions }.

Record Data := mk {
  Roll : float;
  Pitch : float;
  Yaw : float;
  Throttle : float;
  StabilizationMode : Modes }.

Definition is_relay (m : StabilizationModeOptions) : bool :=
  match m with
  | STABILIZATIONMODE_RELAYRATE | STABILIZATIONMODE_RELAYATTITUDE => true
  | _ => false
  end.

(** some axis of the record is in a relay mode *)
Definition has_relay_axis (d : Data) : bool :=
  is_relay (STABILIZATIONMODE_ROLL (StabilizationMode d))
  || is_relay (STABILIZATIONMODE_PITCH (StabilizationMode d))
  || is_relay (STABILIZATIONMODE_YAW (StabilizationMode d)).
End StabilizationDesired.

(** Modelled from the spec: stabilizationsettings.h, the declaration of
    [StabilizationSettingsData]: manual-rate scale factors, attitude
    max-angle limits, and per axis the rate-PID and attitude-PI gains.
    [RollMax] and [PitchMax] stand for their value converted to float, as
    the multiplication with a float operand uses them.  The gain arrays are
    addressed at the indices ..._KP and ..._KI only (the code uses the ROLL
    index constants for the pitch arrays too); [Rest] holds the elements
    the module never addresses. *)
Module StabilizationSettings.
Record Rates := mkRates {
  MANUALRATE_ROLL : float;
  MANUALRATE_PITCH : float;
  MANUALRATE_YAW : float }.
Record Gains := mkGains { KP : float; KI : float; Rest : list float }.
Record Data := mk {
  ManualRate : Rates;
  RollMax : float;
  PitchMax : float;
  RollRatePID : Gains;
  PitchRatePID : Gains;
  RollPI : Gains;
  PitchPI : Gains }.

Definition set_KP (g : Gains) (v : float) : Gains := mkGains v (KI g) (Rest g).
Definition set_KI (g : Gains) (v : float) : Gains := mkGains (KP g) v (Rest g).
Definition set_RollRatePID (s : Data) (g : Gains) : Data :=
  mk (ManualRate s) (RollMax s) (PitchMax s) g (PitchRatePID s) (RollPI s) (PitchPI s).
Definition set_PitchRatePID (s : Data) (g : Gains) : Data :=
  mk (ManualRate s) (RollMax s) (PitchMax s) (RollRatePID s) g (RollPI s) (PitchPI s).
Definition set_RollPI (s : Data) (g : Gains) : Data :=
  mk (ManualRate s) (RollMax s) (PitchMax s) (RollRatePID s) (PitchRatePID s) g (PitchPI s).
Definition set_PitchPI (s : Data) (g : Gains) : Data :=
  mk (ManualRate s) (RollMax s) (PitchMax s) (RollRatePID s) (PitchRatePID s) (RollPI s) g.
End StabilizationSettings.

Inductive UAVObject :=
| FlightStatusHandle
| StabilizationDesiredHandle
| StabilizationSettingsHandle
| ManualControlSettingsHandle
| ManualControlCommandHandle
| RelayTuningSettingsHandle
| RelayTuningHandle.

(* ===================================================================== *)
(** ** The world of the task and its calls *)
(* ===================================================================== *)

(** Modelled from the spec: the kernel's [portTickType], declared in the
    port of the scheduler, which is not among the sources.  It is an
    unsigned 32-bit tick counter; the specification counts it in ms. *)
Definition portTickType_modulus : Z := 2 ^ 32.
Definition wrap32 (z : Z) : Z := z mod portTickType_modulus.

(** The object store, the kernel's tick counter as the task reads it (the
    [n]-th call of [xTaskGetTickCount] returns [tickCount n]), and the
    number of reads done so far. *)
Record World := mkWorld {
  flightStatus : FlightStatus.Data;
  stabilizationDesired : StabilizationDesired.Data;
  stabilizationSettings : StabilizationSettings.Data;
  manualControlSettings : ManualControlSettings.Data;
  manualControlCommand : ManualControlCommand.Data;
  relayTuningSettings : RelayTuningSettings.Data;
  relayTuning : RelayTuning.Data;
  tickCount : nat -> Z;
  tickReads : nat }.

(** What the module does to its surroundings, in program order. *)
Inductive Event :=
| EvWdgUpdateFlag
| EvGet (obj : UAVObject)
| EvStabilizationDesiredSet (d : StabilizationDesired.Data)
| EvStabilizationSettingsSet (s : StabilizationSettings.Data)
| EvUAVObjSave (obj : UAVObject)
| EvGetTickCount (now : Z)
| EvTaskDelay (ticks : Z).

(** A computation reads and changes the world and logs its calls. *)
Definition M (A : Type) : Type := World -> A * World * list Event.

Definition ret {A} (a : A) : M A := fun w => (a, w, []).

Definition bind {A B} (c : M A) (k : A -> M B) : M B :=
  fun w =>
    let '(a, w1, ev1) := c w in
    let '(b, w2, ev2) := k a w1 in
    (b, w2, ev1 ++ ev2).

Declare Scope autotune_scope.
Delimit Scope autotune_scope with autotune.
Notation "x <- c ;; k" := (bind c (fun x => k))
  (at level 61, c at next level, right associativity) : autotune_scope.
Notation "c ;; k" := (bind c (fun _ => k))
  (at level 61, right associativity) : autotune_scope.
Local Open Scope autotune_scope.

Definition result {A} (r : A * World * list Event) : A := fst (fst r).
Definition world_of {A} (r : A * World * list Event) : World := snd (fst r).
Definition events {A} (r : A * World * list Event) : list Event := snd r.

Definition PIOS_WDG_UpdateFlag : M unit := fun w => (tt, w, [EvWdgUpdateFlag]).

Definition vTaskDelay (n : Z) : M unit := fun w => (tt, w, [EvTaskDelay n]).

Definition xTaskGetTickCount : M Z :=
  fun w =>
    let now := wrap32 (tickCount w (tickReads w)) in
    (now,
     mkWorld (flightStatus w) (stabilizationDesired w) (stabilizationSettings w)
             (manualControlSettings w) (manualControlCommand w)
             (relayTuningSettings w) (relayTuning w)
             (tickCount w) (S (tickReads w)),
     [EvGetTickCount now]).

Definition FlightStatusGet : M FlightStatus.Data :=
  fun w => (flightStatus w, w, [EvGet FlightStatusHandle]).
Definition StabilizationDesiredGet : M StabilizationDesired.Data :=
  fun w => (stabilizationDesired w, w, [EvGet StabilizationDesiredHandle]).
Definition StabilizationSettingsGet : M StabilizationSettings.Data :=
  fun w => (stabilizationSettings w, w, [EvGet StabilizationSettingsHandle]).
Definition ManualControlSettingsGet : M ManualControlSettings.Data :=
  fun w => (manualControlSettings w, w, [EvGet ManualControlSettingsHandle]).
Definition ManualControlCommandGet : M ManualControlCommand.Data :=
  fun w => (manualControlCommand w, w, [EvGet ManualControlCommandHandle]).
Definition RelayTuningSettingsGet : M RelayTuningSettings.Data :=
  fun w => (relayTuningSettings w, w, [EvGet RelayTuningSettingsHandle]).
Definition RelayTuningGet : M RelayTuning.Data :=
  fun w => (relayTuning w, w, [EvGet RelayTuningHandle]).

Definition StabilizationDesiredSet (d : StabilizationDesired.Data) : M unit :=
  fun w =>
    (tt,
     mkWorld (flightStatus w) d (stabilizationSettings w)
             (manualControlSettings w) (manualControlCommand w)
             (relayTuningSettings w) (relayTuning w)
             (tickCount w) (tickReads w),
     [EvStabilizationDesiredSet d]).

Definition StabilizationSettingsSet (s : StabilizationSettings.Data) : M unit :=
  fun w =>
    (tt,
     mkWorld (flightStatus w) (stabilizationDesired w) s
             (manualControlSettings w) (manualControlCommand w)
             (relayTuningSettings w) (relayTuning w)
             (tickCount w) (tickReads w),
     [EvStabilizationSettingsSet s]).

(** [UAVObjSave(handle, 0)]: the request to store the object durably. *)
Definition UAVObjSave (obj : UAVObject) : M unit :=
  fun w => (tt, w, [EvUAVObjSave obj]).

(* ===================================================================== *)
(** ** autotune.c *)
(* ===================================================================== *)

(** [enum AUTOTUNE_STATE] *)
Inductive AUTOTUNE_STATE := AT_INIT | AT_START | AT_ROLL | AT_PITCH | AT_FINISHED | AT_SET.

Definition PREPARE_TIME : Z := 2000.
Definition MEAURE_TIME : Z := 30000.

(** The variables of [AutotuneTask] that live across iterations. *)
Record Locals := mkLocals { state : AUTOTUNE_STATE; lastUpdateTime : Z }.

(** *** update_stabilization_settings *)

Definition gain_ratio_r : float := F32.div (F32.of_Z 1) (F32.of_Z 3).
Definition zero_ratio_r : float := F32.div (F32.of_Z 1) (F32.of_Z 3).
Definition gain_ratio_p : float := F32.div (F32.of_Z 1) (F32.of_Z 5).
Definition zero_ratio_p : float := F32.div (F32.of_Z 1) (F32.of_Z 5).

(** The float variables of one pass of the loop over the axes. *)
Record LoopVars := mkLoopVars {
  wu : float; wc : float; zc : float; kpu : float; kp : float; ki : float;
  wc2 : float; kp2 : float; ki2 : float }.

(** The declarations of the loop body for index [i].  [1000.0f * 2] is a
    float product; [M_PI] makes the rest of each initialiser a double
    expression, which the assignment rounds to float. *)
Definition loop_vars (relayTuning : RelayTuning.Data) (i : nat) : LoopVars :=
  let wu :=
    F64.to_float
      (F64.div
         (F64.mul (F64.of_float (F32.mul (F32.of_Z 1000) (F32.of_Z 2))) F64.M_PI)
         (F64.of_float (RelayTuning.at_index (RelayTuning.Period relayTuning) i))) in
  let wc := F32.mul wu gain_ratio_r in
  let zc := F32.mul wc zero_ratio_r in
  let kpu :=
    F64.to_float
      (F64.div
         (F64.div (F64.of_float (F32.of_Z 4)) F64.M_PI)
         (F64.of_float (RelayTuning.at_index (RelayTuning.Gain relayTuning) i))) in
  let kp := F32.mul kpu gain_ratio_r in
  let ki := F32.mul zc kp in
  let wc2 := F32.mul wc gain_ratio_p in
  let kp2 := wc2 in
  let ki2 := F32.mul (F32.mul wc2 zero_ratio_p) kp2 in
  mkLoopVars wu wc zc kpu kp ki wc2 kp2 ki2.

(** The [switch (i)] that stores the four gains of axis [i]. *)
Definition store_gains (i : nat) (v : LoopVars) (stabSettings : StabilizationSettings.Data)
  : StabilizationSettings.Data :=
  let set2 g a b := StabilizationSettings.set_KI (StabilizationSettings.set_KP g a) b in
  match i with
  | 0%nat => (* roll *)
      let s := StabilizationSettings.set_RollRatePID stabSettings
                 (set2 (StabilizationSettings.RollRatePID stabSettings) (kp v) (ki v)) in
      StabilizationSettings.set_RollPI s
        (set2 (StabilizationSettings.RollPI s) (kp2 v) (ki2 v))
  | 1%nat => (* pitch *)
      let s := StabilizationSettings.set_PitchRatePID stabSettings
                 (set2 (StabilizationSettings.PitchRatePID stabSettings) (kp v) (ki v)) in
      StabilizationSettings.set_PitchPI s
        (set2 (StabilizationSettings.PitchPI s) (kp2 v) (ki2 v))
  | _ => stabSettings
  end.

(** [for (uint i = 0; i < 2; i++) { ... }] *)
Definition gains_loop (relayTuning : RelayTuning.Data) (stabSettings : StabilizationSettings.Data)
  : StabilizationSettings.Data :=
  fold_left (fun s i => store_gains i (loop_vars relayTuning i) s) (seq 0 2) stabSettings.

Definition update_stabilization_settings : M unit :=
  relayTuning <- RelayTuningGet ;;
  relaySettings <- RelayTuningSettingsGet ;;
  stabSettings <- StabilizationSettingsGet ;;
  let stabSettings := gains_loop relayTuning stabSettings in
  match RelayTuningSettings.Behavior relaySettings with
  | RelayTuningSettings.BEHAVIOR_MEASURE => ret tt
  | RelayTuningSettings.BEHAVIOR_COMPUTE => StabilizationSettingsSet stabSettings
  | RelayTuningSettings.BEHAVIOR_SAVE =>
      StabilizationSettingsSet stabSettings ;;
      UAVObjSave StabilizationSettingsHandle
  end.

(** *** AutotuneTask *)

Module SD := StabilizationDesired.

Definition set_Roll (d : SD.Data) (v : float) : SD.Data :=
  SD.mk v (SD.Pitch d) (SD.Yaw d) (SD.Throttle d) (SD.StabilizationMode d).
Definition set_Pitch (d : SD.Data) (v : float) : SD.Data :=
  SD.mk (SD.Roll d) v (SD.Yaw d) (SD.Throttle d) (SD.StabilizationMode d).
Definition set_Yaw (d : SD.Data) (v : float) : SD.Data :=
  SD.mk (SD.Roll d) (SD.Pitch d) v (SD.Throttle d) (SD.StabilizationMode d).
Definition set_Throttle (d : SD.Data) (v : float) : SD.Data :=
  SD.mk (SD.Roll d) (SD.Pitch d) (SD.Yaw d) v (SD.StabilizationMode d).
Definition set_Mode_ROLL (d : SD.Data) (m : SD.StabilizationModeOptions) : SD.Data :=
  SD.mk (SD.Roll d) (SD.Pitch d) (SD.Yaw d) (SD.Throttle d)
        (SD.mkModes m (SD.STABILIZATIONMODE_PITCH (SD.StabilizationMode d))
                      (SD.STABILIZATIONMODE_YAW (SD.StabilizationMode d))).
Definition set_Mode_PITCH (d : SD.Data) (m : SD.StabilizationModeOptions) : SD.Data :=
  SD.mk (SD.Roll d) (SD.Pitch d) (SD.Yaw d) (SD.Throttle d)
        (SD.mkModes (SD.STABILIZATIONMODE_ROLL (SD.StabilizationMode d)) m
                    (SD.STABILIZATIONMODE_YAW (SD.StabilizationMode d))).
Definition set_Mode_YAW (d : SD.Data) (m : SD.StabilizationModeOptions) : SD.Data :=
  SD.mk (SD.Roll d) (SD.Pitch d) (SD.Yaw d) (SD.Throttle d)
        (SD.mkModes (SD.STABILIZATIONMODE_ROLL (SD.StabilizationMode d))
                    (SD.STABILIZATIONMODE_PITCH (SD.StabilizationMode d)) m).

(** [relaySettings.Mode == RELAYTUNINGSETTINGS_MODE_RATE] *)
Definition is_MODE_RATE (m : RelayTuningSettings.ModeOptions) : bool :=
  match m with
  | RelayTuningSettings.MODE_RATE => true
  | RelayTuningSettings.MODE_ATTITUDE => false
  end.

(** The record as the iteration fills it before the [switch]: lines 170-186. *)
Definition normal_flight (rate : bool)
    (manualControl : ManualControlCommand.Data)
    (stabSettings : StabilizationSettings.Data)
    (stabDesired : SD.Data) : SD.Data :=
  let MR := StabilizationSettings.ManualRate stabSettings in
  let stabDesired :=
    if rate then
      let d := set_Mode_ROLL stabDesired SD.STABILIZATIONMODE_RATE in
      let d := set_Mode_PITCH d SD.STABILIZATIONMODE_RATE in
      let d := set_Roll d (F32.mul (ManualControlCommand.Roll manualControl)
                                   (StabilizationSettings.MANUALRATE_ROLL MR)) in
      set_Pitch d (F32.mul (ManualControlCommand.Pitch manualControl)
                           (StabilizationSettings.MANUALRATE_PITCH MR))
    else
      let d := set_Mode_ROLL stabDesired SD.STABILIZATIONMODE_ATTITUDE in
      let d := set_Mode_PITCH d SD.STABILIZATIONMODE_ATTITUDE in
      let d := set_Roll d (F32.mul (ManualControlCommand.Roll manualControl)
                                   (StabilizationSettings.RollMax stabSettings)) in
      set_Pitch d (F32.mul (ManualControlCommand.Pitch manualControl)
                           (StabilizationSettings.PitchMax stabSettings)) in
  let stabDesired := set_Mode_YAW stabDesired SD.STABILIZATIONMODE_RATE in
  let stabDesired :=
    set_Yaw stabDesired (F32.mul (ManualControlCommand.Yaw manualControl)
                                 (StabilizationSettings.MANUALRATE_YAW MR)) in
  set_Throttle stabDesired (ManualControlCommand.Throttle manualControl).

(** [rate ? ..._RELAYRATE : ..._RELAYATTITUDE] *)
Definition relay_mode (rate : bool) : SD.StabilizationModeOptions :=
  if rate then SD.STABILIZATIONMODE_RELAYRATE else SD.STABILIZATIONMODE_RELAYATTITUDE.

(** [stabDesired.Throttle > 0] and [stabDesired.Throttle <= 0]: the integer
    0 is converted to float; both comparisons are false on a NaN. *)
Definition Throttle_gt_0 (d : SD.Data) : bool := F32.ltb (F32.of_Z 0) (SD.Throttle d).
Definition Throttle_le_0 (d : SD.Data) : bool := F32.leb (SD.Throttle d) (F32.of_Z 0).

(** [xTaskGetTickCount() - lastUpdateTime] in [portTickType] *)
Definition elapsed (now last : Z) : Z := wrap32 (now - last).

(** The [switch (state)] of the loop body. *)
Definition phase_logic (flightStatus : FlightStatus.Data) (rate : bool)
    (l : Locals) (stabDesired : SD.Data) : M (Locals * SD.Data) :=
  match state l with
  | AT_INIT =>
      now <- xTaskGetTickCount ;;
      if FlightStatus.Armed_eqb (FlightStatus.Armed flightStatus) FlightStatus.ARMED_ARMED
         && Throttle_gt_0 stabDesired
      then ret (mkLocals AT_START now, stabDesired)
      else ret (mkLocals AT_INIT now, stabDesired)
  | AT_START =>
      now <- xTaskGetTickCount ;;
      let diffTime := elapsed now (lastUpdateTime l) in
      if PREPARE_TIME <? diffTime then
        now' <- xTaskGetTickCount ;;
        ret (mkLocals AT_ROLL now', stabDesired)
      else ret (l, stabDesired)
  | AT_ROLL =>
      now <- xTaskGetTickCount ;;
      let diffTime := elapsed now (lastUpdateTime l) in
      let stabDesired := set_Mode_ROLL stabDesired (relay_mode rate) in
      if MEAURE_TIME <? diffTime then
        now' <- xTaskGetTickCount ;;
        ret (mkLocals AT_PITCH now', stabDesired)
      else ret (l, stabDesired)
  | AT_PITCH =>
      now <- xTaskGetTickCount ;;
      let diffTime := elapsed now (lastUpdateTime l) in
      let stabDesired := set_Mode_PITCH stabDesired (relay_mode rate) in
      if MEAURE_TIME <? diffTime then
        now' <- xTaskGetTickCount ;;
        ret (mkLocals AT_FINISHED now', stabDesired)
      else ret (l, stabDesired)
  | AT_FINISHED =>
      if FlightStatus.Armed_eqb (FlightStatus.Armed flightStatus) FlightStatus.ARMED_DISARMED
         && Throttle_le_0 stabDesired
      then ret (mkLocals AT_SET (lastUpdateTime l), stabDesired)
      else ret (l, stabDesired)
  | AT_SET =>
      update_stabilization_settings ;;
      ret (mkLocals AT_INIT (lastUpdateTime l), stabDesired)
  end.

(** One pass through the body of [while (1)]. *)
Definition AutotuneTask_iteration (l : Locals) : M Locals :=
  PIOS_WDG_UpdateFlag ;;
  flightStatus <- FlightStatusGet ;;
  if negb (FlightStatus.is_AUTOTUNE (FlightStatus.FlightMode flightStatus)) then
    (* Only allow this module to run when autotuning *)
    vTaskDelay 50 ;;
    ret (mkLocals AT_INIT (lastUpdateTime l))
  else
    stabDesired <- StabilizationDesiredGet ;;
    stabSettings <- StabilizationSettingsGet ;;
    manualSettings <- ManualControlSettingsGet ;;
    manualControl <- ManualControlCommandGet ;;
    relaySettings <- RelayTuningSettingsGet ;;
    let rate := is_MODE_RATE (RelayTuningSettings.Mode relaySettings) in
    let stabDesired := normal_flight rate manualControl stabSettings stabDesired in
    r <- phase_logic flightStatus rate l stabDesired ;;
    StabilizationDesiredSet (snd r) ;;
    vTaskDelay 10 ;;
    ret (fst r).

(** What the declarations before the loop leave: [state = AT_INIT] and
    [lastUpdateTime = xTaskGetTickCount()]. *)
Definition AutotuneTask_entry : M Locals :=
  now <- xTaskGetTickCount ;;
  ret (mkLocals AT_INIT now).

(** The other tasks of the firmware change the objects between two
    iterations of this one; they do not touch its tick readings. *)
Definition Interference : Type := World -> World.

Definition interfere (f : Interference) : M unit :=
  fun w =>
    let w' := f w in
    (tt,
     mkWorld (flightStatus w') (stabilizationDesired w') (stabilizationSettings w')
             (manualControlSettings w') (manualControlCommand w')
             (relayTuningSettings w') (relayTuning w')
             (tickCount w) (tickReads w),
     []).

(** The first [length fs] iterations of the loop, the [k]-th one after the
    interference [nth k fs]. *)
Fixpoint AutotuneTask_loop (fs : list Interference) (l : Locals) : M Locals :=
  match fs with
  | [] => ret l
  | f :: fs' =>
      interfere f ;;
      l' <- AutotuneTask_iteration l ;;
      AutotuneTask_loop fs' l'
  end.

Definition AutotuneTask (fs : list Interference) : M Locals :=
  l <- AutotuneTask_entry ;;
  AutotuneTask_loop fs l.

(* ===================================================================== *)
(** ** Reading the log of an iteration *)
(* ===================================================================== *)

Definition is_StabilizationDesiredSet (e : Event) : bool :=
  match e with
  | EvStabilizationDesiredSet _ => true
  | _ => false
  end.

Definition is_StabilizationSettingsSet (e : Event) : bool :=
  match e with
  | EvStabilizationSettingsSet _ => true
  | _ => false
  end.

Definition is_UAVObjSave (e : Event) : bool :=
  match e with
  | EvUAVObjSave _ => true
  | _ => false
  end.

(** A read of an object or of the tick counter. *)
Definition is_read (e : Event) : bool :=
  match e with
  | EvGet _ | EvGetTickCount _ => true
  | _ => false
  end.

Definition count_desired_writes (evs : list Event) : nat :=
  length (filter is_StabilizationDesiredSet evs).

Definition writes_settings (evs : list Event) : bool :=
  existsb is_StabilizationSettingsSet evs.

Definition requests_persistence (evs : list Event) : bool :=
  existsb is_UAVObjSave evs.

(** The flight mode and the arming state that an iteration started in [w]
    reads, and the throttle it copies from the manual control command. *)
Definition mode_is_AUTOTUNE (w : World) : bool :=
  FlightStatus.is_AUTOTUNE (FlightStatus.FlightMode (flightStatus w)).
Definition armed_of (w : World) : FlightStatus.ArmedOptions :=
  FlightStatus.Armed (flightStatus w).
Definition throttle_of (w : World) : float :=
  ManualControlCommand.Throttle (manualControlCommand w).

(** The forward order of the phases. *)
Definition next_state (s : AUTOTUNE_STATE) : AUTOTUNE_STATE :=
  match s with
  | AT_INIT => AT_START
  | AT_START => AT_ROLL
  | AT_ROLL => AT_PITCH
  | AT_PITCH => AT_FINISHED
  | AT_FINISHED => AT_SET
  | AT_SET => AT_INIT
  end.

(** [stabDesired] as the iteration started in [w] has it when it enters the
    [switch]. *)
Definition desired_before_switch (w : World) : SD.Data :=
  normal_flight (is_MODE_RATE (RelayTuningSettings.Mode (relayTuningSettings w)))
                (manualControlCommand w) (stabilizationSettings w)
                (stabilizationDesired w).

(** The calls of an iteration in AUTOTUNE mode up to the [switch]. *)
Definition reads_before_switch : list Event :=
  [EvWdgUpdateFlag; EvGet FlightStatusHandle; EvGet StabilizationDesiredHandle;
   EvGet StabilizationSettingsHandle; EvGet ManualControlSettingsHandle;
   EvGet ManualControlCommandHandle; EvGet RelayTuningSettingsHandle].

(** The calls of [update_stabilization_settings] before its [switch]. *)
Definition reads_of_update : list Event :=
  [EvGet RelayTuningHandle; EvGet RelayTuningSettingsHandle;
   EvGet StabilizationSettingsHandle].

(** The phase after the [switch], as a function of what the iteration read:
    the arming state, the throttle, and the first tick reading. *)
Definition state_after_switch (w : World) (l : Locals) : AUTOTUNE_STATE :=
  let diffTime := elapsed (wrap32 (tickCount w (tickReads w))) (lastUpdateTime l) in
  match state l with
  | AT_INIT =>
      if FlightStatus.Armed_eqb (armed_of w) FlightStatus.ARMED_ARMED
         && F32.ltb (F32.of_Z 0) (throttle_of w)
      then AT_START else AT_INIT
  | AT_START => if PREPARE_TIME <? diffTime then AT_ROLL else AT_START
  | AT_ROLL => if MEAURE_TIME <? diffTime then AT_PITCH else AT_ROLL
  | AT_PITCH => if MEAURE_TIME <? diffTime then AT_FINISHED else AT_PITCH
  | AT_FINISHED =>
      if FlightStatus.Armed_eqb (armed_of w) FlightStatus.ARMED_DISARMED
         && F32.leb (throttle_of w) (F32.of_Z 0)
      then AT_SET else AT_FINISHED
  | AT_SET => AT_INIT
  end.


(* ===================================================================== *)
(** ** The math engine in the words of the specification *)
(* ===================================================================== *)

(** The four gains the engine returns for one axis. *)
Record EngineGains := mkEngineGains {
  rate_kp : float; rate_ki : float; attitude_kp : float; attitude_ki : float }.

(** Section 4.3 of the specification, formula by formula, for one axis with
    measured period [Tu] and relay gain [a] and the four ratios as
    parameters; every operation is rounded as the C expression of the same
    shape is. *)
Definition spec_math_engine
    (gain_ratio_inner zero_ratio_inner gain_ratio_outer zero_ratio_outer : float)
    (Tu a : float) : EngineGains :=
  let wu := F64.to_float
              (F64.div (F64.mul (F64.of_float (F32.of_Z 2000)) F64.M_PI)
                       (F64.of_float Tu)) in
  let wc := F32.mul wu gain_ratio_inner in
  let zc := F32.mul wc zero_ratio_inner in
  let kpu := F64.to_float
               (F64.div (F64.div (F64.of_float (F32.of_Z 4)) F64.M_PI)
                        (F64.of_float a)) in
  let kp_rate := F32.mul kpu gain_ratio_inner in
  let ki_rate := F32.mul zc kp_rate in
  let wc2 := F32.mul wc gain_ratio_outer in
  let kp_att := wc2 in
  let ki_att := F32.mul (F32.mul wc2 zero_ratio_outer) kp_att in
  mkEngineGains kp_rate ki_rate kp_att ki_att.

Definition one_third : float := F32.of_ratio 1 3.
Definition one_fifth : float := F32.of_ratio 1 5.

(** The four gains of an axis as they stand in a settings record. *)
Definition roll_gains (s : StabilizationSettings.Data) : EngineGains :=
  mkEngineGains
    (StabilizationSettings.KP (StabilizationSettings.RollRatePID s))
    (StabilizationSettings.KI (StabilizationSettings.RollRatePID s))
    (StabilizationSettings.KP (StabilizationSettings.RollPI s))
    (StabilizationSettings.KI (StabilizationSettings.RollPI s)).

Definition pitch_gains (s : StabilizationSettings.Data) : EngineGains :=
  mkEngineGains
    (StabilizationSettings.KP (StabilizationSettings.PitchRatePID s))
    (StabilizationSettings.KI (StabilizationSettings.PitchRatePID s))
    (StabilizationSettings.KP (StabilizationSettings.PitchPI s))
    (StabilizationSettings.KI (StabilizationSettings.PitchPI s)).

Definition all_finite (g : EngineGains) : bool :=
  SFis_finite (rate_kp g) && SFis_finite (rate_ki g)
  && SFis_finite (attitude_kp g) && SFis_finite (attitude_ki g).

(* ===================================================================== *)
(** ** A session on concrete inputs *)
(* ===================================================================== *)

Definition with_flightStatus (w : World) (fs : FlightStatus.Data) : World :=
  mkWorld fs (stabilizationDesired w) (stabilizationSettings w)
          (manualControlSettings w) (manualControlCommand w)
          (relayTuningSettings w) (relayTuning w) (tickCount w) (tickReads w).

Definition with_Throttle (w : World) (v : float) : World :=
  let mc := manualControlCommand w in
  mkWorld (flightStatus w) (stabilizationDesired w) (stabilizationSettings w)
          (manualControlSettings w)
          (ManualControlCommand.mk (ManualControlCommand.Roll mc)
             (ManualControlCommand.Pitch mc) (ManualControlCommand.Yaw mc) v)
          (relayTuningSettings w) (relayTuning w) (tickCount w) (tickReads w).

Definition with_tickCount (w : World) (t : nat -> Z) : World :=
  mkWorld (flightStatus w) (stabilizationDesired w) (stabilizationSettings w)
          (manualControlSettings w) (manualControlCommand w)
          (relayTuningSettings w) (relayTuning w) t (tickReads w).

Definition with_relaySettings (w : World) (rs : RelayTuningSettings.Data) : World :=
  mkWorld (flightStatus w) (stabilizationDesired w) (stabilizationSettings w)
          (manualControlSettings w) (manualControlCommand w)
          rs (relayTuning w) (tickCount w) (tickReads w).

Definition with_relayTuning (w : World) (rt : RelayTuning.Data) : World :=
  mkWorld (flightStatus w) (stabilizationDesired w) (stabilizationSettings w)
          (manualControlSettings w) (manualControlCommand w)
          (relayTuningSettings w) rt (tickCount w) (tickReads w).

(** Roll and pitch both measured with period 500 ms and gain 0.3. *)
Definition tuning_500_03 : RelayTuning.Data :=
  RelayTuning.mk (RelayTuning.mkPerAxis (F32.of_Z 500) (F32.of_Z 500))
                 (RelayTuning.mkPerAxis (F32.of_ratio 3 10) (F32.of_ratio 3 10)).

Definition settings0 : StabilizationSettings.Data :=
  StabilizationSettings.mk
    (StabilizationSettings.mkRates (F32.of_Z 150) (F32.of_Z 150) (F32.of_Z 150))
    (F32.of_Z 55) (F32.of_Z 55)
    (StabilizationSettings.mkGains (F32.of_ratio 2 1000) (F32.of_ratio 3 1000) [F32.of_ratio 3 10])
    (StabilizationSettings.mkGains (F32.of_ratio 2 1000) (F32.of_ratio 3 1000) [F32.of_ratio 3 10])
    (StabilizationSettings.mkGains (F32.of_Z 2) (F32.of_Z 0) [F32.of_Z 50])
    (StabilizationSettings.mkGains (F32.of_Z 2) (F32.of_Z 0) [F32.of_Z 50]).

(** Power-on: disarmed, manual flight mode, sticks centred except yaw at
    0.5, throttle 0; the tick counter advances by 40000 from one reading to
    the next. *)
Definition world0 : World :=
  mkWorld
    (FlightStatus.mk FlightStatus.ARMED_DISARMED FlightStatus.FLIGHTMODE_MANUAL)
    (SD.mk (F32.of_Z 0) (F32.of_Z 0) (F32.of_Z 0) (F32.of_Z 0)
           (SD.mkModes SD.STABILIZATIONMODE_ATTITUDE SD.STABILIZATIONMODE_ATTITUDE
                       SD.STABILIZATIONMODE_RATE))
    settings0
    ManualControlSettings.mk
    (ManualControlCommand.mk (F32.of_Z 0) (F32.of_Z 0) (F32.of_ratio 1 2) (F32.of_Z 0))
    (RelayTuningSettings.mk RelayTuningSettings.MODE_RATE
                            RelayTuningSettings.BEHAVIOR_COMPUTE)
    tuning_500_03
    (fun n => 40000 * Z.of_nat n)
    0%nat.

(** The pilot has selected AUTOTUNE, armed, and holds the throttle at 0.5. *)
Definition fly : Interference :=
  fun w => with_Throttle
             (with_flightStatus w
                (FlightStatus.mk FlightStatus.ARMED_ARMED FlightStatus.FLIGHTMODE_AUTOTUNE))
             (F32.of_ratio 1 2).

(** Landed: throttle at 0 and disarmed, still in AUTOTUNE. *)
Definition land : Interference :=
  fun w => with_Throttle
             (with_flightStatus w
                (FlightStatus.mk FlightStatus.ARMED_DISARMED FlightStatus.FLIGHTMODE_AUTOTUNE))
             (F32.of_Z 0).

(** The flight mode switch leaves AUTOTUNE. *)
Definition leave_autotune : Interference :=
  fun w => with_flightStatus w
             (FlightStatus.mk (armed_of w) FlightStatus.FLIGHTMODE_STABILIZED1).

(** Nothing changes. *)
Definition quiet : Interference := fun w => w.

(** The world [w] as the next iteration finds it after interference [f]. *)
Definition after (f : Interference) (w : World) : World := world_of (interfere f w).

(** A roll measurement that reports the period 0 (and the gain 0.3); pitch
    as in [tuning_500_03]. *)
Definition tuning_zero_period : RelayTuning.Data :=
  RelayTuning.mk (RelayTuning.mkPerAxis (F32.of_Z 0) (F32.of_Z 500))
                 (RelayTuning.mkPerAxis (F32.of_ratio 3 10) (F32.of_ratio 3 10)).

(** The world [w] with ManualRate[YAW] set to [v]. *)
Definition with_ManualRate_YAW (w : World) (v : float) : World :=
  let s := stabilizationSettings w in
  let MR := StabilizationSettings.ManualRate s in
  mkWorld (flightStatus w) (stabilizationDesired w)
          (StabilizationSettings.mk
             (StabilizationSettings.mkRates (StabilizationSettings.MANUALRATE_ROLL MR)
                                            (StabilizationSettings.MANUALRATE_PITCH MR) v)
             (StabilizationSettings.RollMax s) (StabilizationSettings.PitchMax s)
             (StabilizationSettings.RollRatePID s) (StabilizationSettings.PitchRatePID s)
             (StabilizationSettings.RollPI s) (StabilizationSettings.PitchPI s))
          (manualControlSettings w) (manualControlCommand w)
          (relayTuningSettings w) (relayTuning w) (tickCount w) (tickReads w).

(* ===================================================================== *)
(** ** AutotuneInitialize and AutotuneStart *)
(* ===================================================================== *)

(** Modelled from the spec: hwsettings.h, the declaration of the
    OptionalModules field of HwSettings.  The code reads the element at
    HWSETTINGS_OPTIONALMODULES_AUTOTUNE and compares it with
    HWSETTINGS_OPTIONALMODULES_ENABLED; [OptionalModules_AUTOTUNE] is that
    element. *)
Module HwSettings.
Inductive OptionalModulesOptions := OPTIONALMODULES_DISABLED | OPTIONALMODULES_ENABLED.
Record Data := mk { OptionalModules_AUTOTUNE : OptionalModulesOptions }.
End HwSettings.

Definition STACK_SIZE_BYTES : Z := 1024.
(** [TASK_PRIORITY] is [tskIDLE_PRIORITY + 2]; this is the 2. *)
Definition TASK_PRIORITY_above_idle : Z := 2.

(** The file-scope variables; [taskHandle] is [None] until [xTaskCreate]
    has stored a handle in it.  Static storage starts zeroed. *)
Record Statics := mkStatics { autotuneEnabled : bool; taskHandle : option Z }.

Definition statics_at_boot : Statics := mkStatics false None.

(** The calls of the two start-up functions, in program order. *)
Inductive BootEvent :=
| EvHwSettingsInitialize
| EvHwSettingsOptionalModulesGet
| EvTaskCreate (usStackDepth : Z) (uxPriority_above_idle : Z)
| EvTaskMonitorRegister (handle : option Z)
| EvWdgRegisterFlag.

(** [AutotuneInitialize].  [builtin] tells whether MODULE_AUTOTUNE_BUILTIN is
    defined in the build; [hw] is the HwSettings object.  The result is the
    returned value, the statics, and the calls made. *)
Definition AutotuneInitialize (builtin : bool) (hw : HwSettings.Data) (st : Statics)
  : Z * Statics * list BootEvent :=
  if builtin then
    (0, mkStatics true (taskHandle st), [])
  else
    let optionalModules_AUTOTUNE := HwSettings.OptionalModules_AUTOTUNE hw in
    match optionalModules_AUTOTUNE with
    | HwSettings.OPTIONALMODULES_ENABLED =>
        (0, mkStatics true (taskHandle st),
         [EvHwSettingsInitialize; EvHwSettingsOptionalModulesGet])
    | _ =>
        (0, mkStatics false (taskHandle st),
         [EvHwSettingsInitialize; EvHwSettingsOptionalModulesGet])
    end.

(** What [xTaskCreate] does with its last argument: on success it stores
    the handle of the new task there, on failure it leaves it alone.  Its
    return value is not looked at. *)
Definition xTaskCreate_handle (created : option Z) (old : option Z) : option Z :=
  match created with
  | Some h => Some h
  | None => old
  end.

(** [AutotuneStart].  [created] is the kernel's answer to [xTaskCreate]: the
    handle of the new task, or [None] when the task could not be created. *)
Definition AutotuneStart (created : option Z) (st : Statics)
  : Z * Statics * list BootEvent :=
  if autotuneEnabled st then
    let taskHandle' := xTaskCreate_handle created (taskHandle st) in
    (0, mkStatics (autotuneEnabled st) taskHandle',
     [EvTaskCreate (STACK_SIZE_BYTES / 4) TASK_PRIORITY_above_idle;
      EvTaskMonitorRegister taskHandle';
      EvWdgRegisterFlag])
  else (0, st, []).

(** [MODULE_INITCALL(AutotuneInitialize, AutotuneStart)]: the start-up code
    calls the first, then the second. *)
Definition module_initcall (builtin : bool) (hw : HwSettings.Data)
    (created : option Z) (st : Statics)
  : Z * Z * Statics * list BootEvent :=
  let '(r1, st1, ev1) := AutotuneInitialize builtin hw st in
  let '(r2, st2, ev2) := AutotuneStart created st1 in
  (r1, r2, st2, ev1 ++ ev2).

Definition is_TaskCreate (e : BootEvent) : bool :=
  match e with
  | EvTaskCreate _ _ => true
  | _ => false
  end.

Definition reads_HwSettings (e : BootEvent) : bool :=
  match e with
  | EvHwSettingsInitialize | EvHwSettingsOptionalModulesGet => true
  | _ => false
  end.

(* ===================================================================== *)
(** ** Further readings of an iteration *)
(* ===================================================================== *)

(** How far a phase is from INIT along the cycle. *)
Definition rank (s : AUTOTUNE_STATE) : nat :=
  match s with
  | AT_INIT => 0
  | AT_START => 1
  | AT_ROLL => 2
  | AT_PITCH => 3
  | AT_FINISHED => 4
  | AT_SET => 5
  end.

(** The mode the code gives roll and pitch before the [switch]. *)
Definition normal_mode (rate : bool) : SD.StabilizationModeOptions :=
  if rate then SD.STABILIZATIONMODE_RATE else SD.STABILIZATIONMODE_ATTITUDE.

Definition rate_of (w : World) : bool :=
  is_MODE_RATE (RelayTuningSettings.Mode (relayTuningSettings w)).

(** What the [switch] does to the record, by the phase the iteration
    starts in. *)
Definition phase_overlay (s : AUTOTUNE_STATE) (rate : bool) (d : SD.Data) : SD.Data :=
  match s with
  | AT_ROLL => set_Mode_ROLL d (relay_mode rate)
  | AT_PITCH => set_Mode_PITCH d (relay_mode rate)
  | _ => d
  end.

Definition is_relay_phase (s : AUTOTUNE_STATE) : bool :=
  match s with
  | AT_ROLL | AT_PITCH => true
  | _ => false
  end.

Definition is_WdgUpdateFlag (e : Event) : bool :=
  match e with
  | EvWdgUpdateFlag => true
  | _ => false
  end.

Definition is_TaskDelay (e : Event) : bool :=
  match e with
  | EvTaskDelay _ => true
  | _ => false
  end.

(** Some record written in [evs] has an axis in a relay mode. *)
Definition writes_relay (evs : list Event) : bool :=
  existsb (fun e => match e with
                    | EvStabilizationDesiredSet d => SD.has_relay_axis d
                    | _ => false
                    end) evs.

Definition SFis_nan (x : spec_float) : bool :=
  match x with
  | S754_nan => true
  | _ => false
  end.

(** The tick counts an iteration read, in order. *)
Fixpoint tick_readings (evs : list Event) : list Z :=
  match evs with
  | [] => []
  | EvGetTickCount t :: evs' => t :: tick_readings evs'
  | _ :: evs' => tick_readings evs'
  end.

(** The phases that end on elapsed time. *)
Definition is_timed_phase (s : AUTOTUNE_STATE) : bool :=
  match s with
  | AT_START | AT_ROLL | AT_PITCH => true
  | _ => false
  end.

(** The elapsed time after which a timed phase is left. *)
Definition phase_threshold (s : AUTOTUNE_STATE) : Z :=
  match s with
  | AT_START => PREPARE_TIME
  | _ => MEAURE_TIME
  end.
(* ===================================================================== *)
(** ** Shape of one iteration *)
(* ===================================================================== *)

(** Unfolds the [switch] and the calls inside it. *)
Ltac unfold_phase :=
  unfold phase_logic, update_stabilization_settings, bind, ret, xTaskGetTickCount,
    RelayTuningGet, RelayTuningSettingsGet, StabilizationSettingsGet,
    StabilizationSettingsSet, UAVObjSave, StabilizationDesiredSet,
    result, world_of, events.

(** Case analysis on the next test of the code in the goal. *)
Ltac break_branch :=
  match goal with
  | |- context [if ?c then _ else _] => destruct c eqn:?
  | |- context [match RelayTuningSettings.Behavior ?x with _ => _ end] =>
      destruct (RelayTuningSettings.Behavior x) eqn:?
  end.

Lemma iteration_not_autotune (l : Locals) (w : World) :
  mode_is_AUTOTUNE w = false ->
  AutotuneTask_iteration l w =
    (mkLocals AT_INIT (lastUpdateTime l), w,
     [EvWdgUpdateFlag; EvGet FlightStatusHandle; EvTaskDelay 50]).
Proof.
  unfold mode_is_AUTOTUNE. intros H.
  unfold AutotuneTask_iteration, bind, PIOS_WDG_UpdateFlag, FlightStatusGet.
  cbn. rewrite H. reflexivity.
Qed.

Lemma iteration_autotune (l : Locals) (w : World) :
  mode_is_AUTOTUNE w = true ->
  AutotuneTask_iteration l w =
    (let r := phase_logic (flightStatus w)
                (is_MODE_RATE (RelayTuningSettings.Mode (relayTuningSettings w)))
                l (desired_before_switch w) w in
     (fst (result r),
      world_of (StabilizationDesiredSet (snd (result r)) (world_of r)),
      reads_before_switch ++ events r
        ++ [EvStabilizationDesiredSet (snd (result r)); EvTaskDelay 10])).
Proof.
  unfold mode_is_AUTOTUNE. intros H.
  unfold AutotuneTask_iteration, bind, PIOS_WDG_UpdateFlag, FlightStatusGet.
  cbn. rewrite H. cbn.
  unfold desired_before_switch, result, world_of, events.
  destruct (phase_logic _ _ _ _ _) as [[[l' d] w1] ev]. cbn.
  reflexivity.
Qed.




Lemma Throttle_before_switch (w : World) :
  SD.Throttle (desired_before_switch w) = throttle_of w.
Proof.
  unfold desired_before_switch, normal_flight, throttle_of.
  destruct (is_MODE_RATE _); reflexivity.
Qed.

Lemma phase_logic_state (w : World) (l : Locals) (rate : bool) :
  state (fst (result (phase_logic (flightStatus w) rate l (desired_before_switch w) w)))
  = state_after_switch w l.
Proof.
  unfold state_after_switch, armed_of.
  unfold_phase. unfold Throttle_gt_0, Throttle_le_0.
  rewrite <- (Throttle_before_switch w).
  destruct l as [s last]; destruct s; cbn [state lastUpdateTime fst snd];
    repeat (break_branch; cbn); reflexivity.
Qed.

Lemma iteration_state (l : Locals) (w : World) :
  state (result (AutotuneTask_iteration l w)) =
    if mode_is_AUTOTUNE w then state_after_switch w l else AT_INIT.
Proof.
  destruct (mode_is_AUTOTUNE w) eqn:E.
  - rewrite (iteration_autotune l w E). cbn. apply phase_logic_state.
  - rewrite (iteration_not_autotune l w E). reflexivity.
Qed.

(** The [switch] never calls [StabilizationDesiredSet]. *)
Lemma phase_logic_no_desired_write fs rate l d w :
  forallb (fun e => negb (is_StabilizationDesiredSet e))
          (events (phase_logic fs rate l d w)) = true.
Proof.
  unfold_phase.
  destruct l as [s last]; destruct s; cbn [state lastUpdateTime];
    repeat (break_branch; cbn); reflexivity.
Qed.

(** Only the [AT_SET] case calls [StabilizationSettingsSet] or [UAVObjSave]. *)
Lemma phase_logic_settings_write fs rate l d w :
  state l <> AT_SET ->
  writes_settings (events (phase_logic fs rate l d w)) = false
  /\ requests_persistence (events (phase_logic fs rate l d w)) = false
  /\ stabilizationSettings (world_of (phase_logic fs rate l d w)) = stabilizationSettings w.
Proof.
  intros Hs. unfold_phase.
  destruct l as [s last]; destruct s; cbn [state lastUpdateTime] in *;
    try congruence;
    repeat (break_branch; cbn); repeat split; reflexivity.
Qed.

(** No case of the [switch] assigns the yaw mode or the yaw value. *)
Lemma phase_logic_yaw fs rate l d w :
  let d' := snd (result (phase_logic fs rate l d w)) in
  SD.STABILIZATIONMODE_YAW (SD.StabilizationMode d')
    = SD.STABILIZATIONMODE_YAW (SD.StabilizationMode d)
  /\ SD.Yaw d' = SD.Yaw d.
Proof.
  unfold_phase.
  destruct l as [s last]; destruct s; cbn [state lastUpdateTime];
    repeat (break_branch; cbn); split; reflexivity.
Qed.

Lemma yaw_before_switch (w : World) :
  SD.STABILIZATIONMODE_YAW (SD.StabilizationMode (desired_before_switch w))
    = SD.STABILIZATIONMODE_RATE
  /\ SD.Yaw (desired_before_switch w)
     = F32.mul (ManualControlCommand.Yaw (manualControlCommand w))
               (StabilizationSettings.MANUALRATE_YAW
                  (StabilizationSettings.ManualRate (stabilizationSettings w))).
Proof.
  unfold desired_before_switch, normal_flight.
  destruct (is_MODE_RATE _); split; reflexivity.
Qed.

(** The records an iteration passes to [StabilizationDesiredSet]: none outside
    AUTOTUNE mode, otherwise the one the [switch] leaves. *)
Lemma iteration_desired_writes (l : Locals) (w : World) (d : SD.Data) :
  In (EvStabilizationDesiredSet d) (events (AutotuneTask_iteration l w)) ->
  mode_is_AUTOTUNE w = true
  /\ d = snd (result (phase_logic (flightStatus w)
                        (is_MODE_RATE (RelayTuningSettings.Mode (relayTuningSettings w)))
                        l (desired_before_switch w) w)).
Proof.
  destruct (mode_is_AUTOTUNE w) eqn:E.
  - rewrite (iteration_autotune l w E). cbn [events snd].
    intros H. split; [reflexivity|].
    apply in_app_or in H. destruct H as [H|H].
    { cbn in H. repeat (destruct H as [H|H]; [discriminate H|]). destruct H. }
    apply in_app_or in H. destruct H as [H|H].
    + pose proof (phase_logic_no_desired_write (flightStatus w)
                    (is_MODE_RATE (RelayTuningSettings.Mode (relayTuningSettings w)))
                    l (desired_before_switch w) w) as Hno.
      rewrite forallb_forall in Hno. apply Hno in H. discriminate H.
    + cbn in H. destruct H as [H|[H|[]]]; [|discriminate H].
      injection H as <-. reflexivity.
  - rewrite (iteration_not_autotune l w E). cbn.
    intros [H|[H|[H|[]]]]; discriminate H.
Qed.

(* ===================================================================== *)
(** ** The safety gate *)
(* ===================================================================== *)

Lemma not_AUTOTUNE_iff (w : World) :
  FlightStatus.FlightMode (flightStatus w) <> FlightStatus.FLIGHTMODE_AUTOTUNE
  <-> mode_is_AUTOTUNE w = false.
Proof.
  unfold mode_is_AUTOTUNE.
  destruct (FlightStatus.FlightMode (flightStatus w)); cbn;
    split; intros H; congruence.
Qed.

(** C1 as the code has it.  On an iteration that reads a flight mode other
    than AUTOTUNE, from every phase: the phase becomes INIT; nothing of the
    phase logic runs (the calls of the iteration are the watchdog flag, the
    read of FlightStatus and the 50-tick delay, and no variable other than
    the phase changes); and StabilizationDesired is not written, so every
    object, StabilizationDesired among them, is what it was before the
    iteration: the record has an axis in relay mode after the iteration
    exactly when it had one before. *)
Theorem C1_gate_resets_and_writes_nothing (l : Locals) (w : World) :
  FlightStatus.FlightMode (flightStatus w) <> FlightStatus.FLIGHTMODE_AUTOTUNE ->
  let r := AutotuneTask_iteration l w in
  state (result r) = AT_INIT
  /\ lastUpdateTime (result r) = lastUpdateTime l
  /\ events r = [EvWdgUpdateFlag; EvGet FlightStatusHandle; EvTaskDelay 50]
  /\ count_desired_writes (events r) = 0%nat
  /\ world_of r = w
  /\ SD.has_relay_axis (stabilizationDesired (world_of r))
     = SD.has_relay_axis (stabilizationDesired w).
Proof.
  intros H r. subst r. apply not_AUTOTUNE_iff in H.
  rewrite (iteration_not_autotune l w H). cbn.
  repeat split.
Qed.

(** The gate closes on a session that is in the middle of the roll
    measurement. *)
Lemma C1_gate_resets_and_writes_nothing_witness :
  state (result (AutotuneTask_iteration (mkLocals AT_ROLL 80000)
                   (after leave_autotune (after fly world0)))) = AT_INIT.
Proof.
  refine (proj1 (C1_gate_resets_and_writes_nothing (mkLocals AT_ROLL 80000)
                   (after leave_autotune (after fly world0)) _)).
  cbn. discriminate.
Defined.

(** C1 as the claim states it fails in its last part.  The session of
    [world0] flies through START into ROLL; its third iteration writes
    StabilizationDesired with roll in RELAYRATE.  Then the flight mode
    leaves AUTOTUNE: the next iteration sets the phase to INIT and writes
    nothing, and the StabilizationDesired record still has roll in
    RELAYRATE. *)
Lemma C1_counterexample :
  let before := AutotuneTask [fly; quiet; quiet] world0 in
  let w := after leave_autotune (world_of before) in
  let r := AutotuneTask_iteration (result before) w in
  SD.STABILIZATIONMODE_ROLL (SD.StabilizationMode (stabilizationDesired (world_of before)))
    = SD.STABILIZATIONMODE_RELAYRATE
  /\ mode_is_AUTOTUNE w = false
  /\ state (result r) = AT_INIT
  /\ count_desired_writes (events r) = 0%nat
  /\ SD.STABILIZATIONMODE_ROLL (SD.StabilizationMode (stabilizationDesired (world_of r)))
     = SD.STABILIZATIONMODE_RELAYRATE
  /\ SD.has_relay_axis (stabilizationDesired (world_of r)) = true.
Proof. vm_compute. repeat split. Qed.

(* ===================================================================== *)
(** ** The phases and their order *)
(* ===================================================================== *)

(** C6.  The task holds one phase, a value of the six-valued enumeration,
    which every iteration replaces by exactly one value.  An iteration keeps
    the phase, or moves it to the next one of
    INIT, START, ROLL, PITCH, FINISHED, COMMIT, INIT, or (only when the flight
    mode is not AUTOTUNE) resets it to INIT, which it does from every phase;
    from COMMIT the phase after the iteration is INIT whatever the iteration
    reads; and from every phase some iteration leaves it. *)
Theorem C6_transitions_forward_or_reset :
  (forall l w, exists! s, state (result (AutotuneTask_iteration l w)) = s)
  /\ (forall l w,
      let s' := state (result (AutotuneTask_iteration l w)) in
      s' = state l \/ s' = next_state (state l)
      \/ (mode_is_AUTOTUNE w = false /\ s' = AT_INIT))
  /\ (forall l w, mode_is_AUTOTUNE w = false ->
                  state (result (AutotuneTask_iteration l w)) = AT_INIT)
  /\ (forall l w, state l = AT_SET ->
                  state (result (AutotuneTask_iteration l w)) = AT_INIT)
  /\ (forall s, exists l w,
         state l = s /\ state (result (AutotuneTask_iteration l w)) <> s).
Proof.
  split.
  { intros l w. exists (state (result (AutotuneTask_iteration l w))).
    split; [reflexivity | intros s' H; exact H]. }
  repeat split.
  - intros l w. cbn zeta. rewrite iteration_state.
    destruct (mode_is_AUTOTUNE w).
    + unfold state_after_switch.
      destruct (state l); cbn [next_state];
        try break_branch; auto.
    + auto.
  - intros l w H. rewrite iteration_state, H. reflexivity.
  - intros l w H. rewrite iteration_state.
    unfold state_after_switch. rewrite H. destruct (mode_is_AUTOTUNE w); reflexivity.
  - intros s.
    destruct s.
    + exists (mkLocals AT_INIT 0), (after fly world0). split; [reflexivity|].
      vm_compute. discriminate.
    + exists (mkLocals AT_START 0), (after leave_autotune world0). split; [reflexivity|].
      vm_compute. discriminate.
    + exists (mkLocals AT_ROLL 0), (after leave_autotune world0). split; [reflexivity|].
      vm_compute. discriminate.
    + exists (mkLocals AT_PITCH 0), (after leave_autotune world0). split; [reflexivity|].
      vm_compute. discriminate.
    + exists (mkLocals AT_FINISHED 0), (after land world0). split; [reflexivity|].
      vm_compute. discriminate.
    + exists (mkLocals AT_SET 0), (after land world0). split; [reflexivity|].
      vm_compute. discriminate.
Qed.

(* ===================================================================== *)
(** ** Timing of the phases *)
(* ===================================================================== *)

(** A tick reading is a 32-bit unsigned number. *)
Lemma wrap32_range (z : Z) : 0 <= wrap32 z < 2 ^ 32.
Proof. unfold wrap32, portTickType_modulus. apply Z.mod_pos_bound. lia. Qed.

(** C7 as the code has it.  In AUTOTUNE mode, with [d] the tick count the
    iteration reads minus the stored entry timestamp (in 32-bit unsigned
    arithmetic): from START the phase after the iteration is ROLL exactly
    when [d > PREPARE_TIME], and START otherwise; from ROLL it is PITCH
    exactly when [d > MEASURE_TIME], and ROLL otherwise; from PITCH it is
    FINISHED exactly when [d > MEASURE_TIME], and PITCH otherwise.  In
    particular no transition happens at or before the threshold. *)
Theorem C7_transition_after_threshold (l : Locals) (w : World) :
  mode_is_AUTOTUNE w = true ->
  let d := elapsed (wrap32 (tickCount w (tickReads w))) (lastUpdateTime l) in
  let s' := state (result (AutotuneTask_iteration l w)) in
  (state l = AT_START ->
     (PREPARE_TIME < d -> s' = AT_ROLL) /\ (d <= PREPARE_TIME -> s' = AT_START))
  /\ (state l = AT_ROLL ->
     (MEAURE_TIME < d -> s' = AT_PITCH) /\ (d <= MEAURE_TIME -> s' = AT_ROLL))
  /\ (state l = AT_PITCH ->
     (MEAURE_TIME < d -> s' = AT_FINISHED) /\ (d <= MEAURE_TIME -> s' = AT_PITCH))
  /\ PREPARE_TIME = 2000 /\ MEAURE_TIME = 30000.
Proof.
  intros H d s'. subst s'. rewrite iteration_state, H.
  unfold state_after_switch. fold d.
  split; [|split; [|split; [|split; reflexivity]]];
    intros Hs; rewrite Hs; (split; intros Hd);
    first [ rewrite (proj2 (Z.ltb_lt _ _) Hd) | rewrite (proj2 (Z.ltb_ge _ _) Hd) ];
    reflexivity.
Qed.

(** An iteration in START, 2001 ticks after the entry timestamp. *)
Lemma C7_transition_after_threshold_witness :
  state (result (AutotuneTask_iteration (mkLocals AT_START 0)
                   (with_tickCount (after fly world0) (fun _ => 2001)))) = AT_ROLL.
Proof.
  pose proof (C7_transition_after_threshold (mkLocals AT_START 0)
                (with_tickCount (after fly world0) (fun _ => 2001)) eq_refl) as H.
  cbv zeta in H. destruct H as [H _].
  apply (proj1 (H eq_refl)). vm_compute. reflexivity.
Defined.

(** C7 as the claim states it fails at the threshold itself: an iteration in
    START (ROLL, PITCH) in AUTOTUNE mode that reads an elapsed time of
    exactly 2000 (30000, 30000) ticks stays in START (ROLL, PITCH). *)
Lemma C7_counterexample :
  let w2000 := with_tickCount (after fly world0) (fun _ => 2000) in
  let w30000 := with_tickCount (after fly world0) (fun _ => 30000) in
  mode_is_AUTOTUNE w2000 = true
  /\ mode_is_AUTOTUNE w30000 = true
  /\ (PREPARE_TIME <=? elapsed (wrap32 (tickCount w2000 (tickReads w2000))) 0) = true
  /\ state (result (AutotuneTask_iteration (mkLocals AT_START 0) w2000)) = AT_START
  /\ (MEAURE_TIME <=? elapsed (wrap32 (tickCount w30000 (tickReads w30000))) 0) = true
  /\ state (result (AutotuneTask_iteration (mkLocals AT_ROLL 0) w30000)) = AT_ROLL
  /\ state (result (AutotuneTask_iteration (mkLocals AT_PITCH 0) w30000)) = AT_PITCH.
Proof. vm_compute. repeat split. Qed.

(* ===================================================================== *)
(** ** The StabilizationDesired output *)
(* ===================================================================== *)

(** C8 as the code has it.  Every record an iteration passes to
    [StabilizationDesiredSet], in every phase, has the yaw axis in RATE mode
    and as yaw value the manual yaw command multiplied by ManualRate[YAW];
    hence two iterations that read the same manual yaw command and the same
    ManualRate[YAW], whatever their phases and whatever else they read,
    write the same yaw mode and the same yaw value: no phase overrides the
    yaw axis. *)
Theorem C8_yaw_is_scaled_manual_yaw
    (l1 l2 : Locals) (w1 w2 : World) (d1 d2 : SD.Data) :
  In (EvStabilizationDesiredSet d1) (events (AutotuneTask_iteration l1 w1)) ->
  In (EvStabilizationDesiredSet d2) (events (AutotuneTask_iteration l2 w2)) ->
  ManualControlCommand.Yaw (manualControlCommand w1)
    = ManualControlCommand.Yaw (manualControlCommand w2) ->
  StabilizationSettings.MANUALRATE_YAW
    (StabilizationSettings.ManualRate (stabilizationSettings w1))
    = StabilizationSettings.MANUALRATE_YAW
        (StabilizationSettings.ManualRate (stabilizationSettings w2)) ->
  SD.STABILIZATIONMODE_YAW (SD.StabilizationMode d1) = SD.STABILIZATIONMODE_RATE
  /\ SD.Yaw d1 = F32.mul (ManualControlCommand.Yaw (manualControlCommand w1))
                         (StabilizationSettings.MANUALRATE_YAW
                            (StabilizationSettings.ManualRate (stabilizationSettings w1)))
  /\ SD.STABILIZATIONMODE_YAW (SD.StabilizationMode d2)
     = SD.STABILIZATIONMODE_YAW (SD.StabilizationMode d1)
  /\ SD.Yaw d2 = SD.Yaw d1.
Proof.
  assert (Hone : forall l w d,
             In (EvStabilizationDesiredSet d) (events (AutotuneTask_iteration l w)) ->
             SD.STABILIZATIONMODE_YAW (SD.StabilizationMode d) = SD.STABILIZATIONMODE_RATE
             /\ SD.Yaw d = F32.mul (ManualControlCommand.Yaw (manualControlCommand w))
                             (StabilizationSettings.MANUALRATE_YAW
                                (StabilizationSettings.ManualRate (stabilizationSettings w)))).
  { intros l w d H. apply iteration_desired_writes in H. destruct H as [_ ->].
    destruct (phase_logic_yaw (flightStatus w)
                (is_MODE_RATE (RelayTuningSettings.Mode (relayTuningSettings w)))
                l (desired_before_switch w) w) as [Hm Hv].
    destruct (yaw_before_switch w) as [Hm0 Hv0].
    cbv zeta in Hm, Hv. rewrite Hm, Hv. auto. }
  intros H1 H2 Hy Hr.
  destruct (Hone l1 w1 d1 H1) as [Hm1 Hv1].
  destruct (Hone l2 w2 d2 H2) as [Hm2 Hv2].
  repeat split; congruence.
Qed.

(** An iteration in ROLL while flying and one in PITCH with another
    throttle and arming state: the yaw written is the same. *)
Lemma C8_yaw_is_scaled_manual_yaw_witness :
  let w1 := after fly world0 in
  let w2 := with_Throttle (after land world0) (F32.of_ratio 1 4) in
  SD.Yaw (set_Mode_PITCH (desired_before_switch w2) SD.STABILIZATIONMODE_RELAYRATE)
  = SD.Yaw (set_Mode_ROLL (desired_before_switch w1) SD.STABILIZATIONMODE_RELAYRATE).
Proof.
  cbv zeta.
  refine (proj2 (proj2 (proj2
            (C8_yaw_is_scaled_manual_yaw (mkLocals AT_ROLL 0) (mkLocals AT_PITCH 0)
               (after fly world0) (with_Throttle (after land world0) (F32.of_ratio 1 4))
               (set_Mode_ROLL (desired_before_switch (after fly world0))
                              SD.STABILIZATIONMODE_RELAYRATE)
               (set_Mode_PITCH (desired_before_switch
                                  (with_Throttle (after land world0) (F32.of_ratio 1 4)))
                               SD.STABILIZATIONMODE_RELAYRATE)
               _ _ eq_refl eq_refl)))).
  - vm_compute. do 8 right. left. reflexivity.
  - vm_compute. do 8 right. left. reflexivity.
Defined.

(** C8 as the claim states it fails.  With the manual yaw command 0.5 and
    ManualRate[YAW] = 150 the yaw value written is 75, not the 0.5 of the
    command (the throttle, in the same record, is the command's throttle
    unchanged); and with the same manual input and ManualRate[YAW] = 100
    the yaw value written is 50. *)
Lemma C8_counterexample :
  let w := after fly world0 in
  let w' := with_ManualRate_YAW w (F32.of_Z 100) in
  let d := desired_before_switch w in
  let d' := desired_before_switch w' in
  In (EvStabilizationDesiredSet d) (events (AutotuneTask_iteration (mkLocals AT_INIT 0) w))
  /\ In (EvStabilizationDesiredSet d') (events (AutotuneTask_iteration (mkLocals AT_INIT 0) w'))
  /\ manualControlCommand w' = manualControlCommand w
  /\ ManualControlCommand.Yaw (manualControlCommand w) = F32.of_ratio 1 2
  /\ SD.Yaw d = F32.of_Z 75
  /\ SFeqb (SD.Yaw d) (ManualControlCommand.Yaw (manualControlCommand w)) = false
  /\ SD.Throttle d = ManualControlCommand.Throttle (manualControlCommand w)
  /\ SD.Yaw d' = F32.of_Z 50
  /\ SFeqb (SD.Yaw d') (SD.Yaw d) = false.
Proof.
  vm_compute. repeat split; do 8 right; left; reflexivity.
Qed.

(** C9 as the code has it.  An iteration that reads the flight mode AUTOTUNE
    calls [StabilizationDesiredSet] exactly once, as its last call before the
    closing delay, so after every read of the iteration; an iteration that
    reads another flight mode does not call it.  So the record is written at
    most once per iteration, and never before a read of the same iteration. *)
Theorem C9_one_write_after_all_reads (l : Locals) (w : World) :
  let evs := events (AutotuneTask_iteration l w) in
  (if mode_is_AUTOTUNE w
   then exists pre d,
          evs = pre ++ [EvStabilizationDesiredSet d; EvTaskDelay 10]
          /\ count_desired_writes pre = 0%nat
          /\ count_desired_writes evs = 1%nat
   else count_desired_writes evs = 0%nat)
  /\ (forall pre post d,
         evs = pre ++ EvStabilizationDesiredSet d :: post ->
         existsb is_read post = false).
Proof.
  cbv zeta.
  assert (Hpre : forall fs rate l0 d0 w0,
             count_desired_writes
               (reads_before_switch ++ events (phase_logic fs rate l0 d0 w0)) = 0%nat).
  { intros. unfold count_desired_writes.
    rewrite filter_app, length_app. cbn [reads_before_switch filter is_StabilizationDesiredSet length].
    pose proof (phase_logic_no_desired_write fs rate l0 d0 w0) as Hno.
    induction (events (phase_logic fs rate l0 d0 w0)) as [|e evs IH]; [reflexivity|].
    cbn in Hno |- *. apply andb_true_iff in Hno. destruct Hno as [He Hno].
    destruct (is_StabilizationDesiredSet e); [discriminate He|]. apply IH, Hno. }
  destruct (mode_is_AUTOTUNE w) eqn:E.
  - rewrite (iteration_autotune l w E). cbn [events snd].
    set (r := phase_logic _ _ _ _ _).
    assert (Hcount : count_desired_writes
                       (reads_before_switch ++ events r ++
                          [EvStabilizationDesiredSet (snd (result r)); EvTaskDelay 10]) = 1%nat).
    { rewrite app_assoc. unfold count_desired_writes.
      rewrite filter_app, length_app. fold (count_desired_writes (reads_before_switch ++ events r)).
      unfold r. rewrite Hpre. reflexivity. }
    split.
    + exists (reads_before_switch ++ events r), (snd (result r)).
      split; [now rewrite <- app_assoc|]. split; [apply Hpre | exact Hcount].
    + intros pre post d Heq.
      (* the only write is the last but one call *)
      assert (Hpost : post = [EvTaskDelay 10]); [|rewrite Hpost; reflexivity].
      rewrite app_assoc in Heq.
      change [EvStabilizationDesiredSet (snd (result r)); EvTaskDelay 10]
        with ([EvStabilizationDesiredSet (snd (result r))] ++ [EvTaskDelay 10]) in Heq.
      rewrite app_assoc in Heq.
      destruct post as [|e post] using rev_ind.
      { apply (f_equal (@rev Event)) in Heq.
        rewrite !rev_app_distr in Heq. cbn in Heq. discriminate Heq. }
      clear IHpost.
      change (pre ++ EvStabilizationDesiredSet d :: post ++ [e])
        with (pre ++ (EvStabilizationDesiredSet d :: post) ++ [e]) in Heq.
      rewrite app_assoc in Heq.
      apply app_inj_tail in Heq. destruct Heq as [Heq <-].
      destruct post as [|e' post] using rev_ind; [reflexivity|]. clear IHpost.
      exfalso.
      change (pre ++ EvStabilizationDesiredSet d :: post ++ [e'])
        with (pre ++ (EvStabilizationDesiredSet d :: post) ++ [e']) in Heq.
      rewrite app_assoc in Heq.
      apply app_inj_tail in Heq. destruct Heq as [Heq _].
      apply (f_equal count_desired_writes) in Heq.
      unfold r in Heq. rewrite Hpre in Heq.
      unfold count_desired_writes in Heq.
      rewrite filter_app, length_app in Heq. cbn in Heq. lia.
  - rewrite (iteration_not_autotune l w E). cbn [events snd].
    split; [reflexivity|].
    intros pre post d Heq. exfalso.
    apply (f_equal count_desired_writes) in Heq.
    unfold count_desired_writes in Heq.
    rewrite filter_app, length_app in Heq. cbn in Heq. lia.
Qed.

(** C9 as the claim states it fails on an iteration outside AUTOTUNE mode:
    the record is not written in that iteration. *)
Lemma C9_counterexample :
  mode_is_AUTOTUNE world0 = false
  /\ count_desired_writes (events (AutotuneTask_iteration (mkLocals AT_INIT 0) world0))
     = 0%nat.
Proof. vm_compute. split; reflexivity. Qed.

(* ===================================================================== *)
(** ** Writing StabilizationSettings *)
(* ===================================================================== *)

(** What an iteration does to the settings object, by phase. *)
Lemma iteration_settings_write (l : Locals) (w : World) :
  state l <> AT_SET \/ mode_is_AUTOTUNE w = false ->
  writes_settings (events (AutotuneTask_iteration l w)) = false
  /\ requests_persistence (events (AutotuneTask_iteration l w)) = false
  /\ stabilizationSettings (world_of (AutotuneTask_iteration l w))
     = stabilizationSettings w.
Proof.
  intros H. destruct (mode_is_AUTOTUNE w) eqn:E.
  - destruct H as [H|H]; [|discriminate H].
    rewrite (iteration_autotune l w E). cbn [events world_of fst snd].
    destruct (phase_logic_settings_write (flightStatus w)
                (is_MODE_RATE (RelayTuningSettings.Mode (relayTuningSettings w)))
                l (desired_before_switch w) w H) as (Hw & Hp & Hs).
    unfold writes_settings, requests_persistence in *.
    rewrite !existsb_app, Hw, Hp. cbn. auto.
  - rewrite (iteration_not_autotune l w E). cbn. auto.
Qed.

Lemma state_after_switch_AT_SET (w : World) (l : Locals) :
  state_after_switch w l = AT_SET ->
  state l = AT_FINISHED
  /\ armed_of w = FlightStatus.ARMED_DISARMED
  /\ F32.leb (throttle_of w) (F32.of_Z 0) = true.
Proof.
  unfold state_after_switch.
  destruct (state l); try (break_branch; discriminate); try discriminate.
  destruct (FlightStatus.Armed_eqb _ _) eqn:Ha; cbn [andb]; [|discriminate].
  destruct (F32.leb _ _) eqn:Ht; [|discriminate].
  intros _. destruct (armed_of w); try discriminate Ha. auto.
Qed.

(** The iteration that makes the phase COMMIT read AUTOTUNE, disarmed and a
    throttle that is not above zero, and was in FINISHED. *)
Lemma iteration_enters_AT_SET (l : Locals) (w : World) :
  state (result (AutotuneTask_iteration l w)) = AT_SET ->
  state l = AT_FINISHED
  /\ mode_is_AUTOTUNE w = true
  /\ armed_of w = FlightStatus.ARMED_DISARMED
  /\ F32.leb (throttle_of w) (F32.of_Z 0) = true.
Proof.
  rewrite iteration_state. destruct (mode_is_AUTOTUNE w); [|discriminate].
  intros H. apply state_after_switch_AT_SET in H. tauto.
Qed.

(** C2 as the code has it.  An iteration calls [StabilizationSettingsSet], or
    leaves the settings object different, only when it starts in COMMIT
    ([AT_SET]) in AUTOTUNE mode; the phase becomes COMMIT only by an
    iteration that starts in FINISHED and reads disarmed and throttle <= 0;
    hence every write of the settings is made by the iteration that directly
    follows one which read disarmed and throttle <= 0, whatever the other
    tasks did to the objects in between; the first iteration of the task
    writes no settings. *)
Theorem C2_settings_written_after_disarmed_tick
    (l : Locals) (w : World) (f : Interference) :
  let r1 := AutotuneTask_iteration l w in
  let r2 := AutotuneTask_iteration (result r1) (after f (world_of r1)) in
  (writes_settings (events r1) = true -> state l = AT_SET /\ mode_is_AUTOTUNE w = true)
  /\ (stabilizationSettings (world_of r1) <> stabilizationSettings w ->
      state l = AT_SET /\ mode_is_AUTOTUNE w = true)
  /\ (state (result r1) = AT_SET ->
      state l = AT_FINISHED
      /\ armed_of w = FlightStatus.ARMED_DISARMED
      /\ F32.leb (throttle_of w) (F32.of_Z 0) = true)
  /\ (writes_settings (events r2) = true ->
      state l = AT_FINISHED
      /\ armed_of w = FlightStatus.ARMED_DISARMED
      /\ F32.leb (throttle_of w) (F32.of_Z 0) = true)
  /\ writes_settings (events (AutotuneTask [f] w)) = false.
Proof.
  cbv zeta.
  assert (Hw : forall l0 w0,
             writes_settings (events (AutotuneTask_iteration l0 w0)) = true
             \/ stabilizationSettings (world_of (AutotuneTask_iteration l0 w0))
                <> stabilizationSettings w0 ->
             state l0 = AT_SET /\ mode_is_AUTOTUNE w0 = true).
  { intros l0 w0 H.
    destruct (mode_is_AUTOTUNE w0) eqn:E.
    - destruct l0 as [s t].
      destruct s; try (split; reflexivity); exfalso;
        match goal with
        | _ : context [mkLocals ?s0 t] |- _ =>
            destruct (iteration_settings_write (mkLocals s0 t) w0) as (H1 & _ & H2);
              [left; cbn; discriminate|]
        end;
        destruct H as [H|H]; congruence.
    - exfalso.
      destruct (iteration_settings_write l0 w0) as (H1 & _ & H2); [right; exact E|].
      destruct H as [H|H]; congruence. }
  split; [intros H; apply Hw; left; exact H|].
  split; [intros H; apply Hw; right; exact H|].
  split; [intros H; apply iteration_enters_AT_SET in H; tauto|].
  split.
  - intros H. destruct (Hw _ _ (or_introl H)) as [Hs _].
    apply iteration_enters_AT_SET in Hs. tauto.
  - unfold AutotuneTask, AutotuneTask_entry, AutotuneTask_loop, bind, ret,
      xTaskGetTickCount, interfere. cbn [events fst snd app].
    match goal with
    | |- context [AutotuneTask_iteration ?l0 ?w0] =>
        destruct (iteration_settings_write l0 w0) as (H1 & _);
          [left; cbn; discriminate|];
        destruct (AutotuneTask_iteration l0 w0) as [[l1 w1] ev1]
    end.
    cbn in H1 |- *. rewrite app_nil_r. exact H1.
Qed.

(** C2 as the claim states it fails.  The session of [world0] flies through
    START, ROLL, PITCH and FINISHED, lands disarmed with throttle 0, which
    makes the phase COMMIT; before the next iteration the vehicle is armed
    again with throttle 0.5.  That iteration, in COMMIT, reads armed and a
    positive throttle and writes StabilizationSettings. *)
Lemma C2_counterexample :
  let before := AutotuneTask [fly; quiet; quiet; quiet; land] world0 in
  let w := after fly (world_of before) in
  let r := AutotuneTask_iteration (result before) w in
  state (result before) = AT_SET
  /\ mode_is_AUTOTUNE w = true
  /\ armed_of w = FlightStatus.ARMED_ARMED
  /\ F32.ltb (F32.of_Z 0) (throttle_of w) = true
  /\ writes_settings (events r) = true
  /\ SFeqb (StabilizationSettings.KP
              (StabilizationSettings.RollRatePID (stabilizationSettings (world_of r))))
           (StabilizationSettings.KP
              (StabilizationSettings.RollRatePID (stabilizationSettings w))) = false.
Proof. vm_compute. repeat split. Qed.

Lemma iteration_AT_SET (l : Locals) (w : World) :
  state l = AT_SET -> mode_is_AUTOTUNE w = true ->
  let computed := gains_loop (relayTuning w) (stabilizationSettings w) in
  let tail := [EvStabilizationDesiredSet (desired_before_switch w); EvTaskDelay 10] in
  let r := AutotuneTask_iteration l w in
  match RelayTuningSettings.Behavior (relayTuningSettings w) with
  | RelayTuningSettings.BEHAVIOR_MEASURE =>
      stabilizationSettings (world_of r) = stabilizationSettings w
      /\ events r = reads_before_switch ++ reads_of_update ++ tail
  | RelayTuningSettings.BEHAVIOR_COMPUTE =>
      stabilizationSettings (world_of r) = computed
      /\ events r = reads_before_switch ++ reads_of_update
                      ++ [EvStabilizationSettingsSet computed] ++ tail
  | RelayTuningSettings.BEHAVIOR_SAVE =>
      stabilizationSettings (world_of r) = computed
      /\ events r = reads_before_switch ++ reads_of_update
                      ++ [EvStabilizationSettingsSet computed;
                          EvUAVObjSave StabilizationSettingsHandle] ++ tail
  end.
Proof.
  intros Hs E. cbv zeta. rewrite (iteration_autotune l w E).
  destruct l as [s t]. cbn in Hs. subst s.
  unfold_phase. cbn [state lastUpdateTime].
  destruct (RelayTuningSettings.Behavior (relayTuningSettings w)); cbn; split; reflexivity.
Qed.

(** C5.  On the iteration that runs COMMIT: with behavior MEASURE the
    settings object is left as it was, and neither [StabilizationSettingsSet]
    nor [UAVObjSave] is called; with COMPUTE the object becomes the record
    with the computed gains and [UAVObjSave] is not called; with SAVE the
    object becomes that record and [UAVObjSave] is called on it. *)
Theorem C5_persistence_by_behavior (l : Locals) (w : World) :
  state l = AT_SET -> mode_is_AUTOTUNE w = true ->
  let r := AutotuneTask_iteration l w in
  let computed := gains_loop (relayTuning w) (stabilizationSettings w) in
  match RelayTuningSettings.Behavior (relayTuningSettings w) with
  | RelayTuningSettings.BEHAVIOR_MEASURE =>
      stabilizationSettings (world_of r) = stabilizationSettings w
      /\ writes_settings (events r) = false
      /\ requests_persistence (events r) = false
  | RelayTuningSettings.BEHAVIOR_COMPUTE =>
      stabilizationSettings (world_of r) = computed
      /\ In (EvStabilizationSettingsSet computed) (events r)
      /\ requests_persistence (events r) = false
  | RelayTuningSettings.BEHAVIOR_SAVE =>
      stabilizationSettings (world_of r) = computed
      /\ In (EvStabilizationSettingsSet computed) (events r)
      /\ In (EvUAVObjSave StabilizationSettingsHandle) (events r)
  end.
Proof.
  intros Hs E. cbv zeta.
  pose proof (iteration_AT_SET l w Hs E) as H. cbv zeta in H.
  destruct (RelayTuningSettings.Behavior (relayTuningSettings w));
    destruct H as [Hst Hev]; rewrite Hev; (split; [exact Hst|]).
  - split; reflexivity.
  - split; [|reflexivity].
    apply in_or_app; right. apply in_or_app; right. left. reflexivity.
  - split; apply in_or_app; right; apply in_or_app; right; cbn; auto.
Qed.

(** COMMIT with the behavior of [world0], COMPUTE. *)
Lemma C5_persistence_by_behavior_witness :
  requests_persistence
    (events (AutotuneTask_iteration (mkLocals AT_SET 0) (after land world0))) = false.
Proof.
  exact (proj2 (proj2 (C5_persistence_by_behavior (mkLocals AT_SET 0)
                         (after land world0) eq_refl eq_refl))).
Defined.

(* ===================================================================== *)
(** ** The gain computation *)
(* ===================================================================== *)

(** Where the loop leaves its results; the other fields keep their values. *)
Lemma gains_loop_fields (rt : RelayTuning.Data) (s : StabilizationSettings.Data) :
  let v0 := loop_vars rt 0 in
  let v1 := loop_vars rt 1 in
  let s' := gains_loop rt s in
  roll_gains s' = mkEngineGains (kp v0) (ki v0) (kp2 v0) (ki2 v0)
  /\ pitch_gains s' = mkEngineGains (kp v1) (ki v1) (kp2 v1) (ki2 v1)
  /\ StabilizationSettings.ManualRate s' = StabilizationSettings.ManualRate s
  /\ StabilizationSettings.RollMax s' = StabilizationSettings.RollMax s
  /\ StabilizationSettings.PitchMax s' = StabilizationSettings.PitchMax s.
Proof. repeat split. Qed.

Lemma two_thousand : F32.mul (F32.of_Z 1000) (F32.of_Z 2) = F32.of_Z 2000.
Proof. vm_compute. reflexivity. Qed.

(** The loop body is the engine of the specification with the inner ratios
    1/3 and the outer ratios 1/5, at every index. *)
Lemma loop_vars_engine (rt : RelayTuning.Data) (i : nat) :
  let v := loop_vars rt i in
  mkEngineGains (kp v) (ki v) (kp2 v) (ki2 v)
  = spec_math_engine one_third one_third one_fifth one_fifth
      (RelayTuning.at_index (RelayTuning.Period rt) i)
      (RelayTuning.at_index (RelayTuning.Gain rt) i).
Proof.
  cbv zeta. unfold loop_vars, spec_math_engine. cbn [kp ki kp2 ki2].
  rewrite two_thousand. reflexivity.
Qed.

(** C3 as the code has it.  The constants differ by control loop, not by
    axis: the gains stored for the roll axis and the gains stored for the
    pitch axis are both those of the engine with inner (rate loop) gain and
    zero ratio 1/3 and outer (attitude loop) gain and zero ratio 1/5, applied
    to the period and gain measured on that axis. *)
Theorem C3_same_ratios_on_both_axes (rt : RelayTuning.Data) (s : StabilizationSettings.Data) :
  roll_gains (gains_loop rt s)
  = spec_math_engine one_third one_third one_fifth one_fifth
      (RelayTuning.Roll (RelayTuning.Period rt)) (RelayTuning.Roll (RelayTuning.Gain rt))
  /\ pitch_gains (gains_loop rt s)
     = spec_math_engine one_third one_third one_fifth one_fifth
         (RelayTuning.Pitch (RelayTuning.Period rt)) (RelayTuning.Pitch (RelayTuning.Gain rt))
  /\ gain_ratio_r = one_third /\ zero_ratio_r = one_third
  /\ gain_ratio_p = one_fifth /\ zero_ratio_p = one_fifth.
Proof.
  destruct (gains_loop_fields rt s) as (Hr & Hp & _). cbv zeta in Hr, Hp.
  rewrite Hr, Hp.
  split; [exact (loop_vars_engine rt 0)|].
  split; [exact (loop_vars_engine rt 1)|].
  repeat split.
Qed.

(** C3 as the claim states it fails on the pitch axis.  With period 500 ms
    and gain 0.3 the rate gains stored for pitch are those of ratio 1/3
    (Kp = 1.415, the same as for roll), not those of ratio 1/5 (Kp = 0.849). *)
Lemma C3_counterexample :
  let code := gains_loop tuning_500_03 settings0 in
  let claimed := spec_math_engine one_fifth one_fifth one_fifth one_fifth
                   (F32.of_Z 500) (F32.of_ratio 3 10) in
  SFapprox3 (rate_kp (pitch_gains code)) 1415 = true
  /\ SFapprox3 (rate_kp claimed) 849 = true
  /\ SFeqb (rate_kp (pitch_gains code)) (rate_kp claimed) = false
  /\ SFeqb (rate_ki (pitch_gains code)) (rate_ki claimed) = false
  /\ pitch_gains code = roll_gains code.
Proof. vm_compute. repeat split. Qed.

(** C4 as the code has it.  For period 500 ms and gain 0.3 on the roll axis:
    wu = 12.566, wc = 4.189, kpu = 4.244, zc = 1.396, wc2 = wc / 5 = 0.838,
    and the stored gains are kp_rate = 1.415, ki_rate = 1.975,
    kp_att = 0.838, ki_att = 0.140, each to three decimals. *)
Theorem C4_gains_for_500ms_03 (s : StabilizationSettings.Data) :
  let v := loop_vars tuning_500_03 0 in
  let g := roll_gains (gains_loop tuning_500_03 s) in
  SFapprox3 (wu v) 12566 = true
  /\ SFapprox3 (wc v) 4189 = true
  /\ SFapprox3 (kpu v) 4244 = true
  /\ SFapprox3 (zc v) 1396 = true
  /\ SFapprox3 (wc2 v) 838 = true
  /\ wc2 v = F32.mul (wc v) one_fifth
  /\ SFapprox3 (rate_kp g) 1415 = true
  /\ SFapprox3 (rate_ki g) 1975 = true
  /\ SFapprox3 (attitude_kp g) 838 = true
  /\ SFapprox3 (attitude_ki g) 140 = true.
Proof.
  cbv zeta.
  destruct (gains_loop_fields tuning_500_03 s) as (Hr & _). cbv zeta in Hr.
  rewrite Hr. vm_compute. repeat split.
Qed.

(** C4 as the claim states it fails: the computed ki_rate, wc2, kp_att and
    ki_att are not within 0.01 of 1.948, 1.396, 1.396 and 0.650. *)
Lemma C4_counterexample :
  let v := loop_vars tuning_500_03 0 in
  let g := roll_gains (gains_loop tuning_500_03 settings0) in
  SFbetween (1938 # 1000) (1958 # 1000) (rate_ki g) = false
  /\ SFbetween (1386 # 1000) (1406 # 1000) (wc2 v) = false
  /\ SFbetween (1386 # 1000) (1406 # 1000) (attitude_kp g) = false
  /\ SFbetween (640 # 1000) (660 # 1000) (attitude_ki g) = false.
Proof. vm_compute. repeat split. Qed.

(** A zero period makes the attitude gain of the axis infinite: the division
    in [wu] is carried out. *)
Lemma zero_period_infinite_kp2 (rt : RelayTuning.Data) (i : nat) :
  SFis_zero (RelayTuning.at_index (RelayTuning.Period rt) i) = true ->
  SFis_finite (kp2 (loop_vars rt i)) = false.
Proof.
  unfold loop_vars. cbn [kp2].
  destruct (RelayTuning.at_index (RelayTuning.Period rt) i) as [sg|sg| |sg m e];
    try discriminate.
  intros _. destruct sg; vm_compute; reflexivity.
Qed.

(** A zero relay gain makes the rate gain of the axis infinite: the division
    in [kpu] is carried out. *)
Lemma zero_gain_infinite_kp (rt : RelayTuning.Data) (i : nat) :
  SFis_zero (RelayTuning.at_index (RelayTuning.Gain rt) i) = true ->
  SFis_finite (kp (loop_vars rt i)) = false.
Proof.
  unfold loop_vars. cbn [kp].
  destruct (RelayTuning.at_index (RelayTuning.Gain rt) i) as [sg|sg| |sg m e];
    try discriminate.
  intros _. destruct sg; vm_compute; reflexivity.
Qed.

Lemma all_finite_nonzero (rt : RelayTuning.Data) (i : nat) :
  let v := loop_vars rt i in
  all_finite (mkEngineGains (kp v) (ki v) (kp2 v) (ki2 v)) = true ->
  SFis_zero (RelayTuning.at_index (RelayTuning.Period rt) i) = false
  /\ SFis_zero (RelayTuning.at_index (RelayTuning.Gain rt) i) = false.
Proof.
  cbv zeta. unfold all_finite. cbn [rate_kp rate_ki attitude_kp attitude_ki].
  intros H. repeat (apply andb_true_iff in H; destruct H as [H ?]).
  split.
  - destruct (SFis_zero (RelayTuning.at_index (RelayTuning.Period rt) i)) eqn:Z;
      [|reflexivity].
    apply zero_period_infinite_kp2 in Z. congruence.
  - destruct (SFis_zero (RelayTuning.at_index (RelayTuning.Gain rt) i)) eqn:Z;
      [|reflexivity].
    apply zero_gain_infinite_kp in Z. congruence.
Qed.

(** C10.  On the iteration that runs COMMIT with a behavior other than
    MEASURE, the settings object becomes the record the loop computes from
    RelayTuning, whatever [Period] and [Gain] hold: nothing tests them.  The
    loop divides by them: a zero period of an axis leaves an infinite
    attitude Kp for that axis in the record, and a zero gain an infinite rate
    Kp; so the four stored gains of an axis are all finite only if the
    period and the gain of that axis are both different from zero. *)
Theorem C10_division_unguarded (l : Locals) (w : World) :
  state l = AT_SET -> mode_is_AUTOTUNE w = true ->
  RelayTuningSettings.Behavior (relayTuningSettings w)
    <> RelayTuningSettings.BEHAVIOR_MEASURE ->
  let rt := relayTuning w in
  let stored := stabilizationSettings (world_of (AutotuneTask_iteration l w)) in
  stored = gains_loop rt (stabilizationSettings w)
  /\ (SFis_zero (RelayTuning.Roll (RelayTuning.Period rt)) = true ->
      SFis_finite (attitude_kp (roll_gains stored)) = false)
  /\ (SFis_zero (RelayTuning.Roll (RelayTuning.Gain rt)) = true ->
      SFis_finite (rate_kp (roll_gains stored)) = false)
  /\ (SFis_zero (RelayTuning.Pitch (RelayTuning.Period rt)) = true ->
      SFis_finite (attitude_kp (pitch_gains stored)) = false)
  /\ (SFis_zero (RelayTuning.Pitch (RelayTuning.Gain rt)) = true ->
      SFis_finite (rate_kp (pitch_gains stored)) = false)
  /\ (all_finite (roll_gains stored) = true ->
      SFis_zero (RelayTuning.Roll (RelayTuning.Period rt)) = false
      /\ SFis_zero (RelayTuning.Roll (RelayTuning.Gain rt)) = false)
  /\ (all_finite (pitch_gains stored) = true ->
      SFis_zero (RelayTuning.Pitch (RelayTuning.Period rt)) = false
      /\ SFis_zero (RelayTuning.Pitch (RelayTuning.Gain rt)) = false).
Proof.
  intros Hs E Hb. cbv zeta.
  assert (Hst : stabilizationSettings (world_of (AutotuneTask_iteration l w))
                = gains_loop (relayTuning w) (stabilizationSettings w)).
  { pose proof (iteration_AT_SET l w Hs E) as H. cbv zeta in H.
    destruct (RelayTuningSettings.Behavior (relayTuningSettings w));
      [congruence | apply H | apply H]. }
  rewrite Hst.
  destruct (gains_loop_fields (relayTuning w) (stabilizationSettings w)) as (Hr & Hp & _).
  cbv zeta in Hr, Hp. rewrite Hr, Hp. cbn [rate_kp attitude_kp].
  split; [reflexivity|].
  split; [exact (zero_period_infinite_kp2 (relayTuning w) 0)|].
  split; [exact (zero_gain_infinite_kp (relayTuning w) 0)|].
  split; [exact (zero_period_infinite_kp2 (relayTuning w) 1)|].
  split; [exact (zero_gain_infinite_kp (relayTuning w) 1)|].
  split; [exact (all_finite_nonzero (relayTuning w) 0)
         |exact (all_finite_nonzero (relayTuning w) 1)].
Qed.

(** COMMIT after a roll measurement that reported a period of zero: the
    attitude Kp written for roll is not a finite number. *)
Lemma C10_division_unguarded_witness :
  SFis_finite
    (attitude_kp
       (roll_gains
          (stabilizationSettings
             (world_of (AutotuneTask_iteration (mkLocals AT_SET 0)
                          (with_relayTuning (after land world0) tuning_zero_period))))))
  = false.
Proof.
  refine (proj1 (proj2 (C10_division_unguarded (mkLocals AT_SET 0)
                   (with_relayTuning (after land world0) tuning_zero_period)
                   eq_refl eq_refl _)) eq_refl).
  cbn. discriminate.
Defined.

(* ===================================================================== *)
(** ** Executions of the loop *)
(* ===================================================================== *)

(** The first iteration of an execution and the rest of it. *)
Lemma AutotuneTask_loop_cons (f : Interference) (fs : list Interference)
    (l : Locals) (w : World) :
  AutotuneTask_loop (f :: fs) l w =
    (let r1 := AutotuneTask_iteration l (after f w) in
     let r2 := AutotuneTask_loop fs (result r1) (world_of r1) in
     (result r2, world_of r2, events r1 ++ events r2)).
Proof.
  cbn [AutotuneTask_loop]. unfold bind, interfere, after, world_of, result, events.
  cbn [fst snd app].
  destruct (AutotuneTask_iteration l _) as [[l1 w1] ev1]. cbn [fst snd].
  destruct (AutotuneTask_loop fs l1 w1) as [[l2 w2] ev2]. reflexivity.
Qed.

(** An execution is its iterations one after the other. *)
Lemma AutotuneTask_loop_app (fs1 fs2 : list Interference) (l : Locals) (w : World) :
  AutotuneTask_loop (fs1 ++ fs2) l w =
    (let r1 := AutotuneTask_loop fs1 l w in
     let r2 := AutotuneTask_loop fs2 (result r1) (world_of r1) in
     (result r2, world_of r2, events r1 ++ events r2)).
Proof.
  revert l w. induction fs1 as [|f fs1 IH]; intros l w.
  - cbn. destruct (AutotuneTask_loop fs2 l w) as [[l2 w2] ev2]. reflexivity.
  - cbn [app]. rewrite !AutotuneTask_loop_cons. cbv zeta. rewrite IH. cbv zeta.
    unfold result, world_of, events. cbn [fst snd].
    rewrite app_assoc. reflexivity.
Qed.

Lemma iteration_count_desired_writes (l : Locals) (w : World) :
  count_desired_writes (events (AutotuneTask_iteration l w))
  = if mode_is_AUTOTUNE w then 1%nat else 0%nat.
Proof.
  destruct (mode_is_AUTOTUNE w) eqn:E.
  - rewrite (iteration_autotune l w E). cbn [events snd].
    set (r := phase_logic _ _ _ _ _).
    pose proof (phase_logic_no_desired_write (flightStatus w)
                  (is_MODE_RATE (RelayTuningSettings.Mode (relayTuningSettings w)))
                  l (desired_before_switch w) w) as Hno.
    fold r in Hno. unfold count_desired_writes.
    rewrite !filter_app, !length_app. cbn.
    induction (events r) as [|e evs IH]; [reflexivity|].
    cbn in Hno |- *. apply andb_true_iff in Hno. destruct Hno as [He Hno].
    destruct (is_StabilizationDesiredSet e); [discriminate He|]. apply IH, Hno.
  - rewrite (iteration_not_autotune l w E). reflexivity.
Qed.

(** In an execution the record is written at most once per iteration. *)
Lemma loop_desired_writes_bound (fs : list Interference) (l : Locals) (w : World) :
  (count_desired_writes (events (AutotuneTask_loop fs l w)) <= length fs)%nat.
Proof.
  revert l w. induction fs as [|f fs IH]; intros l w; [cbn; lia|].
  rewrite AutotuneTask_loop_cons. cbv zeta. cbn [events snd length].
  unfold count_desired_writes in *. rewrite filter_app, length_app.
  fold (count_desired_writes (events (AutotuneTask_iteration l (after f w)))).
  rewrite iteration_count_desired_writes.
  specialize (IH (result (AutotuneTask_iteration l (after f w)))
                 (world_of (AutotuneTask_iteration l (after f w)))).
  destruct (mode_is_AUTOTUNE _); lia.
Qed.

(* ===================================================================== *)
(** ** Start-up *)
(* ===================================================================== *)

(** X1.  Start-up creates the task exactly when the module is built in or
    the AUTOTUNE element of HwSettings.OptionalModules is ENABLED, whatever
    the statics held before; it then makes three calls in this order:
    [xTaskCreate] with a stack depth of 256 words and priority idle + 2, the
    task monitor registration, the watchdog flag registration.  Otherwise
    [AutotuneStart] makes no call.  Both functions return 0 in every case,
    and a built-in module does not touch HwSettings. *)
Theorem X1_task_started_iff_enabled
    (builtin : bool) (hw : HwSettings.Data) (created : option Z) (st : Statics) :
  let enabled :=
    builtin || match HwSettings.OptionalModules_AUTOTUNE hw with
               | HwSettings.OPTIONALMODULES_ENABLED => true
               | HwSettings.OPTIONALMODULES_DISABLED => false
               end in
  let '(r1, r2, st', evs) := module_initcall builtin hw created st in
  r1 = 0 /\ r2 = 0
  /\ autotuneEnabled st' = enabled
  /\ existsb is_TaskCreate evs = enabled
  /\ filter (fun e => negb (reads_HwSettings e)) evs
     = (if enabled
        then [EvTaskCreate 256 2; EvTaskMonitorRegister (taskHandle st'); EvWdgRegisterFlag]
        else [])
  /\ existsb reads_HwSettings evs = negb builtin.
Proof.
  unfold module_initcall, AutotuneInitialize, AutotuneStart.
  destruct builtin; [|destruct (HwSettings.OptionalModules_AUTOTUNE hw)];
    cbn; repeat split.
Qed.

(** X2.  [AutotuneStart] does not look at the result of [xTaskCreate]: when
    the module is enabled and the task cannot be created, the handle
    variable keeps its old value, that value is what the task monitor is
    given, the watchdog flag is registered all the same, and 0 is
    returned. *)
Theorem X2_start_ignores_creation_failure (st : Statics) :
  autotuneEnabled st = true ->
  AutotuneStart None st =
    (0, st,
     [EvTaskCreate 256 2; EvTaskMonitorRegister (taskHandle st); EvWdgRegisterFlag]).
Proof.
  intros H. unfold AutotuneStart. rewrite H. cbn.
  destruct st as [e h]. cbn in H. subst e. reflexivity.
Qed.

Lemma X2_start_ignores_creation_failure_witness :
  AutotuneStart None (mkStatics true None) =
    (0, mkStatics true None,
     [EvTaskCreate 256 2; EvTaskMonitorRegister None; EvWdgRegisterFlag]).
Proof.
  exact (X2_start_ignores_creation_failure (mkStatics true None) eq_refl).
Defined.

(* ===================================================================== *)
(** ** More on one iteration *)
(* ===================================================================== *)

Lemma phase_logic_desired fs rate l d w :
  snd (result (phase_logic fs rate l d w)) = phase_overlay (state l) rate d.
Proof.
  unfold_phase.
  destruct l as [s last]; destruct s; cbn [state lastUpdateTime phase_overlay];
    repeat (break_branch; cbn); reflexivity.
Qed.

(** The [switch] leaves every object but StabilizationSettings alone and
    reads the tick counter at most twice. *)
Lemma phase_logic_frame fs rate l d w :
  let w' := world_of (phase_logic fs rate l d w) in
  flightStatus w' = flightStatus w
  /\ stabilizationDesired w' = stabilizationDesired w
  /\ manualControlSettings w' = manualControlSettings w
  /\ manualControlCommand w' = manualControlCommand w
  /\ relayTuningSettings w' = relayTuningSettings w
  /\ relayTuning w' = relayTuning w
  /\ tickCount w' = tickCount w
  /\ (tickReads w <= tickReads w' <= tickReads w + 2)%nat.
Proof.
  unfold_phase.
  destruct l as [s last]; destruct s; cbn [state lastUpdateTime];
    repeat (break_branch; cbn); repeat split; lia.
Qed.

Lemma iteration_written_record (l : Locals) (w : World) (d : SD.Data) :
  In (EvStabilizationDesiredSet d) (events (AutotuneTask_iteration l w)) ->
  mode_is_AUTOTUNE w = true
  /\ d = phase_overlay (state l) (rate_of w) (desired_before_switch w).
Proof.
  intros H. apply iteration_desired_writes in H. destruct H as [E ->].
  split; [exact E|]. apply phase_logic_desired.
Qed.

Lemma iteration_stored_record (l : Locals) (w : World) :
  mode_is_AUTOTUNE w = true ->
  stabilizationDesired (world_of (AutotuneTask_iteration l w))
  = phase_overlay (state l) (rate_of w) (desired_before_switch w)
  /\ In (EvStabilizationDesiredSet
           (phase_overlay (state l) (rate_of w) (desired_before_switch w)))
        (events (AutotuneTask_iteration l w)).
Proof.
  intros E. rewrite (iteration_autotune l w E). cbn [world_of events fst snd].
  rewrite phase_logic_desired. split; [reflexivity|].
  apply in_or_app; right. apply in_or_app; right. left. reflexivity.
Qed.

(** X3.  Every iteration, on both paths, refreshes the watchdog flag
    exactly once, as its first call, and yields exactly once, as its last
    call: for 50 ticks when the flight mode is not AUTOTUNE, for 10 ticks
    when it is. *)
Theorem X3_watchdog_first_delay_last (l : Locals) (w : World) :
  exists mid,
    events (AutotuneTask_iteration l w)
    = EvWdgUpdateFlag :: mid ++ [EvTaskDelay (if mode_is_AUTOTUNE w then 10 else 50)]
    /\ existsb is_WdgUpdateFlag mid = false
    /\ existsb is_TaskDelay mid = false.
Proof.
  destruct (mode_is_AUTOTUNE w) eqn:E.
  - rewrite (iteration_autotune l w E). cbn [events snd].
    set (r := phase_logic _ _ _ _ _).
    exists (tl reads_before_switch ++ events r ++ [EvStabilizationDesiredSet (snd (result r))]).
    split; [cbn; rewrite <- !app_assoc; reflexivity|].
    rewrite !existsb_app.
    assert (H : existsb is_WdgUpdateFlag (events r) = false
                /\ existsb is_TaskDelay (events r) = false).
    { unfold r. unfold_phase.
      destruct l as [s last]; destruct s; cbn [state lastUpdateTime];
        repeat (break_branch; cbn); split; reflexivity. }
    destruct H as [H1 H2]. rewrite H1, H2. split; reflexivity.
  - rewrite (iteration_not_autotune l w E). cbn [events snd].
    exists [EvGet FlightStatusHandle]. repeat split.
Qed.

(** X4.  No iteration changes FlightStatus, ManualControlCommand,
    ManualControlSettings, RelayTuningSettings or RelayTuning, and every
    iteration reads the tick counter at most twice. *)
Theorem X4_inputs_are_read_only (l : Locals) (w : World) :
  let w' := world_of (AutotuneTask_iteration l w) in
  flightStatus w' = flightStatus w
  /\ manualControlCommand w' = manualControlCommand w
  /\ manualControlSettings w' = manualControlSettings w
  /\ relayTuningSettings w' = relayTuningSettings w
  /\ relayTuning w' = relayTuning w
  /\ tickCount w' = tickCount w
  /\ (tickReads w <= tickReads w' <= tickReads w + 2)%nat.
Proof.
  cbv zeta. destruct (mode_is_AUTOTUNE w) eqn:E.
  - rewrite (iteration_autotune l w E). cbn [world_of fst snd].
    pose proof (phase_logic_frame (flightStatus w) (rate_of w) l
                  (desired_before_switch w) w) as H.
    cbv zeta in H. unfold rate_of in H.
    destruct H as (H1 & _ & H3 & H4 & H5 & H6 & H7 & H8).
    unfold StabilizationDesiredSet. cbn. tauto.
  - rewrite (iteration_not_autotune l w E). cbn. repeat split; lia.
Qed.

(** X5.  The record an iteration writes has, in every phase, the throttle
    of the manual control command unchanged, and as roll and pitch values
    the manual roll and pitch commands multiplied by ManualRate[ROLL] and
    ManualRate[PITCH] when the relay tuning mode is RATE, and by RollMax and
    PitchMax when it is ATTITUDE. *)
Theorem X5_values_from_manual_control (l : Locals) (w : World) (d : SD.Data) :
  In (EvStabilizationDesiredSet d) (events (AutotuneTask_iteration l w)) ->
  let mc := manualControlCommand w in
  let ss := stabilizationSettings w in
  let MR := StabilizationSettings.ManualRate ss in
  SD.Throttle d = ManualControlCommand.Throttle mc
  /\ SD.Roll d
     = F32.mul (ManualControlCommand.Roll mc)
               (if rate_of w then StabilizationSettings.MANUALRATE_ROLL MR
                else StabilizationSettings.RollMax ss)
  /\ SD.Pitch d
     = F32.mul (ManualControlCommand.Pitch mc)
               (if rate_of w then StabilizationSettings.MANUALRATE_PITCH MR
                else StabilizationSettings.PitchMax ss).
Proof.
  intros H. apply iteration_written_record in H. destruct H as [_ ->].
  cbv zeta. unfold desired_before_switch, normal_flight, rate_of.
  destruct (is_MODE_RATE _); destruct (state l); repeat split.
Qed.

Lemma X5_values_from_manual_control_witness :
  SD.Throttle (phase_overlay AT_PITCH (rate_of (after fly world0))
                 (desired_before_switch (after fly world0)))
  = F32.of_ratio 1 2.
Proof.
  refine (proj1 (X5_values_from_manual_control (mkLocals AT_PITCH 0) (after fly world0)
                   _ _)).
  exact (proj2 (iteration_stored_record (mkLocals AT_PITCH 0) (after fly world0) eq_refl)).
Defined.

(** X6.  After an iteration in AUTOTUNE mode the StabilizationDesired
    object holds, whatever it held before: yaw in RATE mode; roll in the
    relay mode of the configured kind (RELAYRATE for RATE, RELAYATTITUDE for
    ATTITUDE) if the iteration started in ROLL, and in the plain mode of
    that kind otherwise; pitch likewise for PITCH.  So the object has an
    axis in relay mode exactly when the iteration started in ROLL or PITCH,
    and never two. *)
Theorem X6_relay_axis_by_phase (l : Locals) (w : World) :
  mode_is_AUTOTUNE w = true ->
  let modes := SD.StabilizationMode
                 (stabilizationDesired (world_of (AutotuneTask_iteration l w))) in
  SD.STABILIZATIONMODE_ROLL modes
    = match state l with
      | AT_ROLL => relay_mode (rate_of w)
      | _ => normal_mode (rate_of w)
      end
  /\ SD.STABILIZATIONMODE_PITCH modes
     = match state l with
       | AT_PITCH => relay_mode (rate_of w)
       | _ => normal_mode (rate_of w)
       end
  /\ SD.STABILIZATIONMODE_YAW modes = SD.STABILIZATIONMODE_RATE
  /\ SD.has_relay_axis (stabilizationDesired (world_of (AutotuneTask_iteration l w)))
     = is_relay_phase (state l)
  /\ SD.is_relay (SD.STABILIZATIONMODE_ROLL modes)
     && SD.is_relay (SD.STABILIZATIONMODE_PITCH modes) = false.
Proof.
  intros E. cbv zeta.
  rewrite (proj1 (iteration_stored_record l w E)).
  unfold desired_before_switch, normal_flight, rate_of.
  destruct (is_MODE_RATE _); destruct (state l); repeat split.
Qed.

Lemma X6_relay_axis_by_phase_witness :
  SD.has_relay_axis
    (stabilizationDesired
       (world_of (AutotuneTask_iteration (mkLocals AT_ROLL 0) (after fly world0))))
  = true.
Proof.
  exact (proj1 (proj2 (proj2 (proj2
           (X6_relay_axis_by_phase (mkLocals AT_ROLL 0) (after fly world0) eq_refl))))).
Defined.

(* ===================================================================== *)
(** ** Leaving INIT and FINISHED *)
(* ===================================================================== *)

Lemma Armed_eqb_eq (a b : FlightStatus.ArmedOptions) :
  FlightStatus.Armed_eqb a b = true <-> a = b.
Proof. destruct a, b; cbn; split; intros H; congruence. Qed.

(** X7.  In AUTOTUNE mode an iteration that starts in INIT ends in START
    exactly when it read ARMED and a throttle above 0, and in INIT
    otherwise; an iteration that starts in FINISHED ends in COMMIT exactly
    when it read DISARMED and a throttle not above 0, and in FINISHED
    otherwise. *)
Theorem X7_leaving_INIT_and_FINISHED (l : Locals) (w : World) :
  mode_is_AUTOTUNE w = true ->
  let s' := state (result (AutotuneTask_iteration l w)) in
  (state l = AT_INIT ->
     (s' = AT_START <->
        armed_of w = FlightStatus.ARMED_ARMED
        /\ F32.ltb (F32.of_Z 0) (throttle_of w) = true)
     /\ (s' = AT_START \/ s' = AT_INIT))
  /\ (state l = AT_FINISHED ->
     (s' = AT_SET <->
        armed_of w = FlightStatus.ARMED_DISARMED
        /\ F32.leb (throttle_of w) (F32.of_Z 0) = true)
     /\ (s' = AT_SET \/ s' = AT_FINISHED)).
Proof.
  intros E. cbv zeta. rewrite iteration_state, E. unfold state_after_switch.
  split; intros Hs; rewrite Hs.
  - rewrite <- (Armed_eqb_eq (armed_of w) FlightStatus.ARMED_ARMED).
    destruct (FlightStatus.Armed_eqb _ _); destruct (F32.ltb _ _); cbn;
      (split; [split; [intros H; try discriminate H; auto | intros [H1 H2]; congruence] | auto]).
  - rewrite <- (Armed_eqb_eq (armed_of w) FlightStatus.ARMED_DISARMED).
    destruct (FlightStatus.Armed_eqb _ _); destruct (F32.leb _ _); cbn;
      (split; [split; [intros H; try discriminate H; auto | intros [H1 H2]; congruence] | auto]).
Qed.

Lemma X7_leaving_INIT_and_FINISHED_witness :
  state (result (AutotuneTask_iteration (mkLocals AT_INIT 0) (after fly world0)))
  = AT_START.
Proof.
  apply (proj1 (X7_leaving_INIT_and_FINISHED (mkLocals AT_INIT 0) (after fly world0)
                  eq_refl) eq_refl).
  split; reflexivity.
Defined.

(** X8.  A throttle that is not a number passes neither test: in AUTOTUNE
    mode, whatever the arming state, an iteration that starts in INIT stays
    in INIT and one that starts in FINISHED stays in FINISHED, so a finished
    session is not committed; and the NaN is written to StabilizationDesired
    as the throttle. *)
Theorem X8_NaN_throttle_blocks_start_and_commit (l : Locals) (w : World) :
  mode_is_AUTOTUNE w = true ->
  throttle_of w = S754_nan ->
  state l = AT_INIT \/ state l = AT_FINISHED ->
  state (result (AutotuneTask_iteration l w)) = state l
  /\ SD.Throttle (stabilizationDesired (world_of (AutotuneTask_iteration l w)))
     = S754_nan.
Proof.
  intros E Hn Hs. split.
  - rewrite iteration_state, E. unfold state_after_switch. rewrite Hn.
    destruct Hs as [Hs|Hs]; rewrite Hs;
      destruct (FlightStatus.Armed_eqb _ _); reflexivity.
  - rewrite (proj1 (iteration_stored_record l w E)).
    assert (Ht : SD.Throttle (phase_overlay (state l) (rate_of w) (desired_before_switch w))
                 = SD.Throttle (desired_before_switch w)).
    { destruct (state l); reflexivity. }
    rewrite Ht, Throttle_before_switch. exact Hn.
Qed.

Lemma X8_NaN_throttle_blocks_start_and_commit_witness :
  state (result (AutotuneTask_iteration (mkLocals AT_FINISHED 0)
                   (with_Throttle (after land world0) S754_nan)))
  = AT_FINISHED.
Proof.
  refine (proj1 (X8_NaN_throttle_blocks_start_and_commit (mkLocals AT_FINISHED 0)
                   (with_Throttle (after land world0) S754_nan) eq_refl eq_refl _)).
  right. reflexivity.
Defined.

(* ===================================================================== *)
(** ** The tick counter *)
(* ===================================================================== *)

(** The 32-bit subtraction gives the true distance across a wrap of the
    counter. *)
Lemma elapsed_across_wrap (t0 delta : Z) :
  0 <= delta < 2 ^ 32 ->
  elapsed (wrap32 (t0 + delta)) (wrap32 t0) = delta.
Proof.
  intros H. unfold elapsed, wrap32, portTickType_modulus.
  rewrite <- Zminus_mod.
  replace (t0 + delta - t0) with delta by lia.
  apply Z.mod_small. exact H.
Qed.

(** X9.  The phase timing survives the wrap-around of the 32-bit tick
    counter: if the entry timestamp was taken when the kernel's count was
    [t0] and the iteration reads the count [delta] ticks later, with
    [delta] below 2^32, then in AUTOTUNE mode a timed phase (START, ROLL,
    PITCH) is left for the next one exactly when [delta] exceeds its
    threshold (2000, 30000, 30000), whether or not the counter wrapped in
    between. *)
Theorem X9_timing_across_counter_wrap (l : Locals) (w : World) (t0 delta : Z) :
  mode_is_AUTOTUNE w = true ->
  is_timed_phase (state l) = true ->
  lastUpdateTime l = wrap32 t0 ->
  tickCount w (tickReads w) = t0 + delta ->
  0 <= delta < 2 ^ 32 ->
  state (result (AutotuneTask_iteration l w))
  = if phase_threshold (state l) <? delta then next_state (state l) else state l.
Proof.
  intros E Ht Hl Hc Hd. rewrite iteration_state, E.
  unfold state_after_switch. rewrite Hl, Hc, (elapsed_across_wrap t0 delta Hd).
  destruct (state l); try discriminate Ht; reflexivity.
Qed.

(** START entered 1000 ticks before the counter wraps, read 1001 ticks
    after the wrap. *)
Lemma X9_timing_across_counter_wrap_witness :
  state (result (AutotuneTask_iteration (mkLocals AT_START (2 ^ 32 - 1000))
                   (with_tickCount (after fly world0) (fun _ => 2 ^ 32 + 1001))))
  = AT_ROLL.
Proof.
  refine (X9_timing_across_counter_wrap (mkLocals AT_START (2 ^ 32 - 1000))
            (with_tickCount (after fly world0) (fun _ => 2 ^ 32 + 1001))
            (2 ^ 32 - 1000) 2001 eq_refl eq_refl _ _ _).
  - vm_compute. reflexivity.
  - vm_compute. reflexivity.
  - lia.
Defined.

Lemma phase_logic_timestamp fs rate l d w :
  let r := phase_logic fs rate l d w in
  let l' := fst (result r) in
  (state l = AT_INIT \/ (is_timed_phase (state l) = true /\ state l' <> state l) ->
     lastUpdateTime l' = last (tick_readings (events r)) 0)
  /\ (state l <> AT_INIT -> state l' = state l \/ is_timed_phase (state l) = false ->
      lastUpdateTime l' = lastUpdateTime l).
Proof.
  unfold_phase.
  destruct l as [s t]; destruct s; cbn [state lastUpdateTime];
    repeat (break_branch; cbn); split; intros; try reflexivity;
    repeat match goal with
           | H : _ \/ _ |- _ => destruct H
           | H : _ /\ _ |- _ => destruct H
           end; congruence.
Qed.

Lemma tick_readings_app (a b : list Event) :
  tick_readings (a ++ b) = tick_readings a ++ tick_readings b.
Proof.
  induction a as [|e a IH]; [reflexivity|].
  destruct e; cbn; rewrite ?IH; reflexivity.
Qed.

(** X10.  In AUTOTUNE mode: an iteration in INIT, and an iteration that
    moves START, ROLL or PITCH to the next phase, stores as entry timestamp
    the last tick count it read itself; every other iteration that starts
    outside INIT keeps the timestamp.  So the time in START is counted from
    the last iteration spent in INIT, and the time in ROLL, PITCH from the
    iteration that entered them. *)
Theorem X10_entry_timestamp_is_fresh (l : Locals) (w : World) :
  mode_is_AUTOTUNE w = true ->
  let r := AutotuneTask_iteration l w in
  (state l = AT_INIT
   \/ (is_timed_phase (state l) = true /\ state (result r) <> state l) ->
     tick_readings (events r) <> []
     /\ lastUpdateTime (result r) = last (tick_readings (events r)) 0)
  /\ (state l <> AT_INIT ->
      state (result r) = state l \/ is_timed_phase (state l) = false ->
      lastUpdateTime (result r) = lastUpdateTime l).
Proof.
  intros E. cbv zeta. rewrite (iteration_autotune l w E).
  cbn [result events fst snd].
  pose proof (phase_logic_timestamp (flightStatus w) (rate_of w) l
                (desired_before_switch w) w) as H.
  cbv zeta in H. unfold rate_of in H. destruct H as [H1 H2].
  set (r := phase_logic _ _ _ _ _) in *.
  assert (Hr : tick_readings
                 (reads_before_switch ++ events r
                    ++ [EvStabilizationDesiredSet (snd (result r)); EvTaskDelay 10])
               = tick_readings (events r)).
  { rewrite !tick_readings_app. cbn. apply app_nil_r. }
  rewrite Hr. split; [|exact H2].
  intros H. split; [|exact (H1 H)].
  unfold r. unfold_phase.
  destruct l as [s t]; destruct s; cbn [state lastUpdateTime] in *;
    repeat (break_branch; cbn); try discriminate;
    destruct H as [H|[H H']]; try discriminate H;
    exfalso; apply H'; subst r; unfold_phase; cbn;
    repeat match goal with
           | Hc : ?c = _ |- context [if ?c then _ else _] => rewrite Hc
           end; reflexivity.
Qed.

Lemma X10_entry_timestamp_is_fresh_witness :
  lastUpdateTime (result (AutotuneTask_iteration (mkLocals AT_INIT 7) (after fly world0)))
  = 0.
Proof.
  refine (proj2 (proj1 (X10_entry_timestamp_is_fresh (mkLocals AT_INIT 7)
                          (after fly world0) eq_refl) _)).
  left. reflexivity.
Defined.

(* ===================================================================== *)
(** ** More on update_stabilization_settings *)
(* ===================================================================== *)

(** X11.  [update_stabilization_settings] changes nothing but the Kp and Ki
    elements of RollRatePID, PitchRatePID, RollPI and PitchPI: the other
    elements of these arrays, ManualRate, RollMax and PitchMax keep their
    values, every other object is left alone, and the tick counter is not
    read. *)
Theorem X11_update_touches_only_Kp_Ki (w : World) :
  let w' := world_of (update_stabilization_settings w) in
  let s := stabilizationSettings w in
  let s' := stabilizationSettings w' in
  StabilizationSettings.ManualRate s' = StabilizationSettings.ManualRate s
  /\ StabilizationSettings.RollMax s' = StabilizationSettings.RollMax s
  /\ StabilizationSettings.PitchMax s' = StabilizationSettings.PitchMax s
  /\ StabilizationSettings.Rest (StabilizationSettings.RollRatePID s')
     = StabilizationSettings.Rest (StabilizationSettings.RollRatePID s)
  /\ StabilizationSettings.Rest (StabilizationSettings.PitchRatePID s')
     = StabilizationSettings.Rest (StabilizationSettings.PitchRatePID s)
  /\ StabilizationSettings.Rest (StabilizationSettings.RollPI s')
     = StabilizationSettings.Rest (StabilizationSettings.RollPI s)
  /\ StabilizationSettings.Rest (StabilizationSettings.PitchPI s')
     = StabilizationSettings.Rest (StabilizationSettings.PitchPI s)
  /\ flightStatus w' = flightStatus w
  /\ stabilizationDesired w' = stabilizationDesired w
  /\ manualControlSettings w' = manualControlSettings w
  /\ manualControlCommand w' = manualControlCommand w
  /\ relayTuningSettings w' = relayTuningSettings w
  /\ relayTuning w' = relayTuning w
  /\ tickCount w' = tickCount w
  /\ tickReads w' = tickReads w.
Proof.
  cbv zeta. unfold_phase. cbn -[gains_loop].
  destruct (RelayTuningSettings.Behavior (relayTuningSettings w));
    cbn -[gains_loop]; repeat split.
Qed.

(** The loop overwrites the eight gains with values that do not depend on
    the record it is given. *)
Lemma gains_loop_idempotent (rt : RelayTuning.Data) (s : StabilizationSettings.Data) :
  gains_loop rt (gains_loop rt s) = gains_loop rt s.
Proof. reflexivity. Qed.

(** X12.  Running [update_stabilization_settings] a second time on the same
    measurements changes nothing more: the objects after two runs are those
    after one run, whatever the behavior; and the gains it stores do not
    depend on the gains that were stored before. *)
Theorem X12_update_idempotent (w : World) :
  world_of (update_stabilization_settings (world_of (update_stabilization_settings w)))
  = world_of (update_stabilization_settings w)
  /\ (forall s1 s2 : StabilizationSettings.Data,
         roll_gains (gains_loop (relayTuning w) s1)
         = roll_gains (gains_loop (relayTuning w) s2)
         /\ pitch_gains (gains_loop (relayTuning w) s1)
            = pitch_gains (gains_loop (relayTuning w) s2)).
Proof.
  split; [|intros s1 s2; split; reflexivity].
  unfold_phase. cbn -[gains_loop].
  destruct (RelayTuningSettings.Behavior (relayTuningSettings w)) eqn:B;
    cbn -[gains_loop]; rewrite ?B; cbn -[gains_loop];
    rewrite ?gains_loop_idempotent; reflexivity.
Qed.

Lemma SFmul_nan_r (prec emax : Z) (x : spec_float) :
  SFmul prec emax x S754_nan = S754_nan.
Proof. destruct x; reflexivity. Qed.

Lemma SFdiv_nan_r (prec emax : Z) (x : spec_float) :
  SFdiv prec emax x S754_nan = S754_nan.
Proof. destruct x; reflexivity. Qed.

(** X13.  A measurement that is not a number is not filtered out: a NaN
    period of an axis makes the attitude Kp, the attitude Ki and the rate Ki
    computed for that axis NaN, and a NaN gain makes its rate Kp and rate Ki
    NaN. *)
Theorem X13_NaN_measurement_gives_NaN_gains
    (rt : RelayTuning.Data) (s : StabilizationSettings.Data) :
  let s' := gains_loop rt s in
  (RelayTuning.Roll (RelayTuning.Period rt) = S754_nan ->
     attitude_kp (roll_gains s') = S754_nan
     /\ attitude_ki (roll_gains s') = S754_nan
     /\ rate_ki (roll_gains s') = S754_nan)
  /\ (RelayTuning.Roll (RelayTuning.Gain rt) = S754_nan ->
     rate_kp (roll_gains s') = S754_nan /\ rate_ki (roll_gains s') = S754_nan)
  /\ (RelayTuning.Pitch (RelayTuning.Period rt) = S754_nan ->
     attitude_kp (pitch_gains s') = S754_nan
     /\ attitude_ki (pitch_gains s') = S754_nan
     /\ rate_ki (pitch_gains s') = S754_nan)
  /\ (RelayTuning.Pitch (RelayTuning.Gain rt) = S754_nan ->
     rate_kp (pitch_gains s') = S754_nan /\ rate_ki (pitch_gains s') = S754_nan).
Proof.
  cbv zeta.
  destruct (gains_loop_fields rt s) as (Hr & Hp & _). cbv zeta in Hr, Hp.
  rewrite Hr, Hp. cbn [rate_kp rate_ki attitude_kp attitude_ki].
  unfold loop_vars. cbn [kp ki kp2 ki2 RelayTuning.at_index].
  unfold F32.mul, F64.to_float, F64.div, F64.of_float.
  repeat split; rewrite H; cbn [SFconv]; rewrite ?SFdiv_nan_r; cbn [SFconv];
    rewrite ?SFmul_nan_r; reflexivity.
Qed.

(* ===================================================================== *)
(** ** More on executions *)
(* ===================================================================== *)

Lemma iteration_rank_step (l : Locals) (w : World) :
  (rank (state (result (AutotuneTask_iteration l w))) <= rank (state l) + 1)%nat.
Proof.
  rewrite iteration_state. destruct (mode_is_AUTOTUNE w); [|cbn; lia].
  unfold state_after_switch.
  destruct (state l); try break_branch; cbn; lia.
Qed.

Lemma has_relay_axis_overlay (s : AUTOTUNE_STATE) (w : World) :
  SD.has_relay_axis (phase_overlay s (rate_of w) (desired_before_switch w))
  = is_relay_phase s.
Proof.
  unfold desired_before_switch, normal_flight, rate_of.
  destruct (is_MODE_RATE _); destruct s; reflexivity.
Qed.

(** An iteration writes a record with a relay axis exactly when it reads
    AUTOTUNE and starts in ROLL or PITCH. *)
Lemma iteration_writes_relay (l : Locals) (w : World) :
  writes_relay (events (AutotuneTask_iteration l w))
  = mode_is_AUTOTUNE w && is_relay_phase (state l).
Proof.
  destruct (mode_is_AUTOTUNE w) eqn:E.
  - rewrite (iteration_autotune l w E). cbn [events snd andb].
    unfold writes_relay. rewrite !existsb_app. cbn [reads_before_switch existsb orb].
    rewrite phase_logic_desired. fold (rate_of w). rewrite has_relay_axis_overlay.
    pose proof (phase_logic_no_desired_write (flightStatus w) (rate_of w) l
                  (desired_before_switch w) w) as Hno.
    match goal with
    | |- existsb ?f ?evs || _ = _ =>
        assert (Hev : existsb f evs = false); [|rewrite Hev; cbn; apply orb_false_r]
    end.
    unfold rate_of in Hno.
    induction (events (phase_logic _ _ _ _ _)) as [|e evs IH]; [reflexivity|].
    cbn in Hno |- *. apply andb_true_iff in Hno. destruct Hno as [He Hno].
    destruct e; try discriminate He; cbn; apply IH, Hno.
  - rewrite (iteration_not_autotune l w E). reflexivity.
Qed.

(** What an execution started in [l] can have done after [length fs]
    iterations. *)
Lemma loop_rank (fs : list Interference) (l : Locals) (w : World) :
  let r := AutotuneTask_loop fs l w in
  (rank (state (result r)) <= rank (state l) + length fs)%nat
  /\ ((rank (state l) + length fs <= 5)%nat -> writes_settings (events r) = false)
  /\ ((rank (state l) + length fs <= 2)%nat -> writes_relay (events r) = false).
Proof.
  revert l w. induction fs as [|f fs IH]; intros l w.
  - cbn. repeat split. lia.
  - cbv zeta. rewrite AutotuneTask_loop_cons. cbv zeta.
    cbn [result world_of events fst snd length].
    set (r1 := AutotuneTask_iteration l (after f w)).
    pose proof (iteration_rank_step l (after f w)) as Hstep. fold r1 in Hstep.
    destruct (IH (result r1) (world_of r1)) as (Hr & Hw & Hx). cbv zeta in Hr, Hw, Hx.
    unfold result, world_of, events in *.
    split; [lia|]. split; intros Hb.
    + unfold writes_settings in *. rewrite existsb_app.
      rewrite Hw by lia.
      destruct (iteration_settings_write l (after f w)) as (H1 & _).
      { left. intros Hs. rewrite Hs in Hb. cbn in Hb. lia. }
      fold r1 in H1. unfold writes_settings, events in H1. rewrite H1. reflexivity.
    + unfold writes_relay in *. rewrite existsb_app.
      rewrite Hx by lia.
      pose proof (iteration_writes_relay l (after f w)) as H1.
      fold r1 in H1. unfold writes_relay, events in H1. rewrite H1.
      destruct (state l); cbn in Hb |- *; try lia; apply andb_false_r.
Qed.

(** The task is its entry followed by the loop. *)
Lemma AutotuneTask_unfold (fs : list Interference) (w : World) :
  AutotuneTask fs w =
    (let e := AutotuneTask_entry w in
     let r := AutotuneTask_loop fs (result e) (world_of e) in
     (result r, world_of r, events e ++ events r)).
Proof.
  unfold AutotuneTask, bind. cbv zeta.
  destruct (AutotuneTask_entry w) as [[l0 w0] ev0].
  unfold result, world_of, events. cbn [fst snd].
  destruct (AutotuneTask_loop fs l0 w0) as [[l1 w1] ev1]. reflexivity.
Qed.

(** X14.  Phases are not skipped.  From the start of the task, whatever
    the other tasks do to the objects and whatever the tick counter reads:
    after [n] iterations the phase is at most [n] steps from INIT along the
    cycle; no record with an axis in relay mode is written during the first
    two iterations; and StabilizationSettings is not written during the
    first five. *)
Theorem X14_phases_not_skipped (fs : list Interference) (w : World) :
  let r := AutotuneTask fs w in
  (rank (state (result r)) <= length fs)%nat
  /\ ((length fs <= 2)%nat -> writes_relay (events r) = false)
  /\ ((length fs <= 5)%nat -> writes_settings (events r) = false).
Proof.
  cbv zeta. rewrite AutotuneTask_unfold. cbv zeta.
  cbn [result world_of events fst snd].
  destruct (loop_rank fs (fst (fst (AutotuneTask_entry w)))
              (snd (fst (AutotuneTask_entry w)))) as (Hr & Hw & Hx).
  cbv zeta in Hr, Hw, Hx. unfold result, world_of, events in *.
  change (state (fst (fst (AutotuneTask_entry w)))) with AT_INIT in *.
  change (snd (AutotuneTask_entry w))
    with [EvGetTickCount (wrap32 (tickCount w (tickReads w)))].
  cbn [rank plus] in *.
  split; [exact Hr|]. split; intros Hb.
  - unfold writes_relay in *. rewrite existsb_app, (Hx Hb). reflexivity.
  - unfold writes_settings in *. rewrite existsb_app, (Hw Hb). reflexivity.
Qed.

(** X15.  As long as no iteration reads the flight mode AUTOTUNE, the task
    does nothing to the objects: after such an execution, however long, the
    phase is INIT, and neither StabilizationDesired nor
    StabilizationSettings has been written. *)
Theorem X15_idle_outside_autotune (fs : list Interference) (l : Locals) (w : World) :
  (forall f w', In f fs -> mode_is_AUTOTUNE (after f w') = false) ->
  fs <> [] ->
  let r := AutotuneTask_loop fs l w in
  state (result r) = AT_INIT
  /\ count_desired_writes (events r) = 0%nat
  /\ writes_settings (events r) = false
  /\ stabilizationDesired (world_of r)
     = stabilizationDesired (fold_left (fun w0 f => after f w0) fs w)
  /\ stabilizationSettings (world_of r)
     = stabilizationSettings (fold_left (fun w0 f => after f w0) fs w).
Proof.
  revert l w. induction fs as [|f fs IH]; intros l w Hf Hne; [congruence|].
  cbv zeta. rewrite AutotuneTask_loop_cons. cbv zeta.
  pose proof (Hf f w (or_introl eq_refl)) as Hm.
  rewrite (iteration_not_autotune l (after f w) Hm).
  cbn [result world_of events fst snd app fold_left].
  destruct fs as [|g fs].
  - cbn. repeat split.
  - specialize (IH (mkLocals AT_INIT (lastUpdateTime l)) (after f w)
                   (fun h w' Hh => Hf h w' (or_intror Hh))).
    cbv zeta in IH. apply IH. discriminate.
Qed.

Lemma X15_idle_outside_autotune_witness :
  state (result (AutotuneTask_loop [leave_autotune; leave_autotune]
                   (mkLocals AT_PITCH 0) (after fly world0)))
  = AT_INIT.
Proof.
  refine (proj1 (X15_idle_outside_autotune [leave_autotune; leave_autotune]
                   (mkLocals AT_PITCH 0) (after fly world0) _ _)).
  - intros f w' [<-|[<-|[]]]; reflexivity.
  - discriminate.
Defined.
